(** * zram zstd backend (drivers/block/zram/zcomp_zstd.c)

    A shallow embedding of the zstd compression backend of zram: the tiered
    allocator [alloc_mem], the compression context, the per-CPU pool of
    decompression contexts and the four backend operations
    create / destroy / compress / decompress.

    The kernel allocators and the zstd codec are external to the file.  The
    allocators are modelled by a bookkeeping heap and a trace of calls; the
    codec is an interface ([Codec]) the backend is parametric in. *)

From stdpp Require Import base option list gmap.
From Stdlib Require Import ZArith Lia.
From Stdlib Require Import Init.Byte.

Local Open Scope Z_scope.

(** ** Pointers, errno values, C integer conversions *)

Abbreviation ptr := Z (only parsing).
Definition NULL : ptr := 0.

Definition ENOMEM : Z := 12.
Definition EINVAL : Z := 22.

(** Conversion of an [unsigned int] to [int] (modular, as gcc does it). *)
Definition int_of_unsigned (u : Z) : Z :=
  if u <? 2 ^ 31 then u else u - 2 ^ 32.

(** ** Kernel allocator interface *)

Inductive gfp :=
| GFP_KERNEL | GFP_NOIO | __GFP_NORETRY | __GFP_NOWARN | __GFP_ZERO | __GFP_HIGHMEM.

Inductive alloc_fn := Kmalloc | Kzalloc | Vmalloc | Alloc_percpu.
Inductive free_fn := Kfree | Vfree | Kvfree | Free_percpu.

Inductive event :=
| EvAlloc (f : alloc_fn) (size : Z) (flags : list gfp) (ret : ptr)
| EvFree (f : free_fn) (p : ptr).

Inductive log_entry :=
| CompressError (code : Z)
| DecompressError (code : Z).

Global Instance gfp_eq_dec : EqDecision gfp.
Proof. solve_decision. Defined.
Global Instance alloc_fn_eq_dec : EqDecision alloc_fn.
Proof. solve_decision. Defined.
Global Instance free_fn_eq_dec : EqDecision free_fn.
Proof. solve_decision. Defined.
Global Instance event_eq_dec : EqDecision event.
Proof. solve_decision. Defined.

(** Bookkeeping for one allocation: which allocator made it, its size,
    whether the allocator zero-filled it, and how many times it has been
    released (more than once: a double free). *)
Record block := mkblock {
  b_fn : alloc_fn;
  b_size : Z;
  b_zeroed : bool;
  b_frees : nat }.

(** ** The structs of the file *)

Record percpu_zstd_dctx := mk_dctx { dwksp : ptr; dctx : ptr }.
Record zstd_ctx := mk_ctx { cwksp : ptr; cctx : ptr }.

(** ** Kernel state

    [percpu_dctx] is the file's static pointer.  [ctx_mem] and [percpu_mem]
    hold the contents of the [struct zstd_ctx] objects and of the per-CPU
    areas (one slot per possible CPU), keyed by address.  [plan] scripts the
    outcome of the allocation attempts still to come ([true]: the attempt
    succeeds; an exhausted plan means success). *)
Record kstate := mk_kstate {
  heap : gmap Z block;
  ctx_mem : gmap Z zstd_ctx;
  percpu_mem : gmap Z (list percpu_zstd_dctx);
  percpu_dctx : ptr;
  brk : positive;
  plan : list bool;
  klog : list log_entry;
  trace : list event }.

Definition boot (pl : list bool) : kstate :=
  mk_kstate ∅ ∅ ∅ NULL 4096%positive pl [] [].

(** State and fault monad: [None] is a wild dereference. *)
Definition M (A : Type) : Type := kstate → option (A * kstate).

Global Instance M_ret : MRet M := λ A a st, Some (a, st).
Global Instance M_bind : MBind M := λ A B f m st,
  match m st with
  | Some (a, st') => f a st'
  | None => None
  end.

Definition get_percpu_dctx : M ptr := λ st, Some (percpu_dctx st, st).
Definition set_percpu_dctx (p : ptr) : M unit := λ st,
  Some (tt, mk_kstate (heap st) (ctx_mem st) (percpu_mem st) p
                      (brk st) (plan st) (klog st) (trace st)).

Definition pr_err (e : log_entry) : M unit := λ st,
  Some (tt, mk_kstate (heap st) (ctx_mem st) (percpu_mem st) (percpu_dctx st)
                      (brk st) (plan st) (klog st ++ [e]) (trace st)).

(** One allocation attempt.  On success a fresh block is handed out. *)
Definition next_ok (st : kstate) : bool :=
  match plan st with
  | [] => true
  | b :: _ => b
  end.

Definition attempt (fn : alloc_fn) (size : Z) (flags : list gfp) (zero : bool)
  : M ptr := λ st,
  let p := if next_ok st then Z.pos (brk st) else NULL in
  Some (p,
    mk_kstate
      (if next_ok st then <[Z.pos (brk st) := mkblock fn size zero 0]> (heap st)
       else heap st)
      (ctx_mem st) (percpu_mem st) (percpu_dctx st)
      (if next_ok st then (brk st + Z.to_pos size)%positive else brk st)
      (tail (plan st)) (klog st)
      (trace st ++ [EvAlloc fn size flags p])).

Definition has_zero (flags : list gfp) : bool :=
  bool_decide (__GFP_ZERO ∈ flags).

Definition kmalloc (size : Z) (flags : list gfp) : M ptr :=
  attempt Kmalloc size flags (has_zero flags).
Definition kzalloc (size : Z) (flags : list gfp) : M ptr :=
  attempt Kzalloc size flags true.
Definition __vmalloc (size : Z) (flags : list gfp) : M ptr :=
  attempt Vmalloc size flags (has_zero flags).

(** Which blocks a free function releases.  kfree releases slab objects
    (kmalloc, kzalloc), vfree releases vmalloc areas, kvfree releases either
    (it looks at the address and calls vfree or kfree), free_percpu releases
    per-CPU areas.  vfree of an address that is no vmalloc area finds
    nothing to release and returns (with a warning); the other mismatches do
    not occur in this file and are treated alike. *)
Definition releases (f : free_fn) (a : alloc_fn) : bool :=
  match f, a with
  | Kfree, Kmalloc | Kfree, Kzalloc => true
  | Vfree, Vmalloc => true
  | Kvfree, Kmalloc | Kvfree, Kzalloc | Kvfree, Vmalloc => true
  | Free_percpu, Alloc_percpu => true
  | _, _ => false
  end.

Definition bump_frees (b : block) : block :=
  mkblock (b_fn b) (b_size b) (b_zeroed b) (S (b_frees b)).

Definition released_by (f : free_fn) (b : block) : block :=
  if releases f (b_fn b) then bump_frees b else b.

(** Releasing NULL is a no-op for kfree, vfree, kvfree and free_percpu; the
    call is still recorded. *)
Definition release (fn : free_fn) (p : ptr) : M unit := λ st,
  Some (tt,
    mk_kstate
      (if bool_decide (p = NULL) then heap st
       else alter (released_by fn) p (heap st))
      (ctx_mem st) (percpu_mem st) (percpu_dctx st) (brk st) (plan st)
      (klog st) (trace st ++ [EvFree fn p])).

Definition kfree := release Kfree.
Definition vfree := release Vfree.
Definition kvfree := release Kvfree.
Definition free_percpu := release Free_percpu.

(** ** Platform constants and the codec interface *)

Class Platform := {
  PAGE_SIZE : Z;
  nr_cpu_ids : nat;
  sizeof_zstd_ctx : Z;
  sizeof_percpu_zstd_dctx : Z;
  (** what a field of a freshly kmalloc'ed object reads as *)
  poison : Z }.

Definition ZRAM_ZSTD_LEVEL : Z := 1.

(** Modelled from the spec: the zstd codec (linux/zstd.h, lib/zstd), an
    external collaborator whose code is not part of this file.  The spec
    lists what the backend consumes: a parameter set computed from (level,
    target size), the minimum workspace size for compression and for
    decompression, construction of an engine handle in place over a
    caller-supplied buffer (NULL when it fails), compression and
    decompression through a handle, returning either a length or an error,
    and the classification of a result as an error with its diagnostic
    code. *)
Class Codec := {
  ZSTD_compressionParameters : Type;
  ZSTD_parameters : Type;
  cParams : ZSTD_parameters → ZSTD_compressionParameters;
  ZSTD_getParams : Z → Z → Z → ZSTD_parameters;
  ZSTD_CCtxWorkspaceBound : ZSTD_compressionParameters → Z;
  ZSTD_DCtxWorkspaceBound : Z;
  ZSTD_initCCtx : ptr → Z → ptr;
  ZSTD_initDCtx : ptr → Z → ptr;
  (** handle, dstCapacity, src, srcSize, params: result and bytes written *)
  ZSTD_compressCCtx : ptr → Z → list byte → Z → ZSTD_parameters → Z * list byte;
  (** handle, dstCapacity, src, srcSize: result and bytes written *)
  ZSTD_decompressDCtx : ptr → Z → list byte → Z → Z * list byte;
  ZSTD_isError : Z → Z;
  ZSTD_getErrorCode : Z → Z }.

(** A callee writes [out] over the front of the caller's buffer. *)
Definition overwrite (out buf : list byte) : list byte :=
  out ++ drop (length out) buf.

(** ** Typed memory accesses *)

Definition load_ctx (p : ptr) : M zstd_ctx := λ st,
  c ← ctx_mem st !! p; Some (c, st).

Definition store_ctx (p : ptr) (c : zstd_ctx) : M unit := λ st,
  _ ← ctx_mem st !! p;
  Some (tt, mk_kstate (heap st) (<[p := c]> (ctx_mem st)) (percpu_mem st)
                      (percpu_dctx st) (brk st) (plan st) (klog st) (trace st)).

(** [per_cpu_ptr(base, cpu)] is the pair of the area and the CPU number. *)
Definition load_slot (base : ptr) (cpu : nat) : M percpu_zstd_dctx := λ st,
  area ← percpu_mem st !! base; s ← area !! cpu; Some (s, st).

Definition store_slot (base : ptr) (cpu : nat) (s : percpu_zstd_dctx)
  : M unit := λ st,
  area ← percpu_mem st !! base;
  _ ← area !! cpu;
  Some (tt, mk_kstate (heap st) (ctx_mem st)
                      (<[base := <[cpu := s]> area]> (percpu_mem st))
                      (percpu_dctx st) (brk st) (plan st) (klog st) (trace st)).

(** Make the contents of a fresh object visible at its address. *)
Definition map_ctx (p : ptr) (c : zstd_ctx) : M unit := λ st,
  Some (tt, mk_kstate (heap st) (<[p := c]> (ctx_mem st)) (percpu_mem st)
                      (percpu_dctx st) (brk st) (plan st) (klog st) (trace st)).

Definition map_area (p : ptr) (a : list percpu_zstd_dctx) : M unit := λ st,
  Some (tt, mk_kstate (heap st) (ctx_mem st) (<[p := a]> (percpu_mem st))
                      (percpu_dctx st) (brk st) (plan st) (klog st) (trace st)).

Section Backend.
Context {P : Platform} {C : Codec}.

(** [for_each_possible_cpu] visits the CPUs in increasing order. *)
Definition possible_cpus : list nat := seq 0 nr_cpu_ids.

(** [kmalloc(sizeof(struct zstd_ctx), GFP_KERNEL)]: the fields are not
    initialised. *)
Definition kmalloc_zstd_ctx : M ptr :=
  p ← kmalloc sizeof_zstd_ctx [GFP_KERNEL];
  if bool_decide (p = NULL) then mret NULL
  else map_ctx p (mk_ctx poison poison);; mret p.

(** [alloc_percpu(struct percpu_zstd_dctx)]: one zero-filled slot per
    possible CPU. *)
Definition alloc_percpu : M ptr :=
  p ← attempt Alloc_percpu sizeof_percpu_zstd_dctx [GFP_KERNEL] true;
  if bool_decide (p = NULL) then mret NULL
  else map_area p (replicate nr_cpu_ids (mk_dctx NULL NULL));; mret p.

Definition zstd_params : ZSTD_parameters :=
  ZSTD_getParams ZRAM_ZSTD_LEVEL PAGE_SIZE 0.

Definition alloc_mem (size : Z) : M ptr :=
  ret ← kzalloc size [GFP_NOIO; __GFP_NORETRY; __GFP_NOWARN];
  if bool_decide (ret = NULL) then
    __vmalloc size [GFP_NOIO; __GFP_NORETRY; __GFP_NOWARN; __GFP_ZERO; __GFP_HIGHMEM]
  else mret ret.

Definition zstd_comp_init (ctx : ptr) : M Z :=
  let params := zstd_params in
  let wksp_size := ZSTD_CCtxWorkspaceBound (cParams params) in
  w ← alloc_mem wksp_size;
  c ← load_ctx ctx;
  store_ctx ctx (mk_ctx w (cctx c));;
  if bool_decide (w = NULL) then mret (- ENOMEM)
  else
    let h := ZSTD_initCCtx w wksp_size in
    store_ctx ctx (mk_ctx w h);;
    if bool_decide (h = NULL) then
      (* out_free *)
      c ← load_ctx ctx;
      vfree (cwksp c);;
      mret (- EINVAL)
    else mret 0.

Definition zstd_decomp_init (base : ptr) (cpu : nat) : M Z :=
  let wksp_size := ZSTD_DCtxWorkspaceBound in
  w ← alloc_mem wksp_size;
  s ← load_slot base cpu;
  store_slot base cpu (mk_dctx w (dctx s));;
  if bool_decide (w = NULL) then mret (- ENOMEM)
  else
    let h := ZSTD_initDCtx w wksp_size in
    store_slot base cpu (mk_dctx w h);;
    if bool_decide (h = NULL) then
      (* out_free *)
      s ← load_slot base cpu;
      vfree (dwksp s);;
      mret (- EINVAL)
    else mret 0.

(** The first loop of [zcomp_zstd_create_percpu]; leaves at the first
    failure. *)
Fixpoint init_slots (cpus : list nat) : M Z :=
  match cpus with
  | [] => mret 0
  | cpu :: rest =>
      base ← get_percpu_dctx;
      ret ← zstd_decomp_init base cpu;
      if bool_decide (ret ≠ 0) then mret ret else init_slots rest
  end.

(** The loop shared by the failure path and by destroy:
    [vfree] of every possible CPU's workspace. *)
Fixpoint free_slots (cpus : list nat) : M unit :=
  match cpus with
  | [] => mret tt
  | cpu :: rest =>
      base ← get_percpu_dctx;
      s ← load_slot base cpu;
      vfree (dwksp s);;
      free_slots rest
  end.

Definition zcomp_zstd_create_percpu (ctx : ptr) : M Z :=
  p ← alloc_percpu;
  set_percpu_dctx p;;
  if bool_decide (p = NULL) then mret (- ENOMEM)
  else
    ret ← init_slots possible_cpus;
    if bool_decide (ret ≠ 0) then
      (* failure *)
      free_slots possible_cpus;;
      mret ret
    else mret 0.

Definition create_failed (ctx : ptr) : M ptr :=
  c ← load_ctx ctx;
  kvfree (cwksp c);;
  mret NULL.

Definition zcomp_zstd_create : M ptr :=
  ctx ← kmalloc_zstd_ctx;
  if bool_decide (ctx = NULL) then mret NULL
  else
    ret ← zstd_comp_init ctx;
    if bool_decide (ret ≠ 0) then create_failed ctx
    else
      ret ← zcomp_zstd_create_percpu ctx;
      if bool_decide (ret ≠ 0) then create_failed ctx
      else mret ctx.

Definition zcomp_zstd_destroy (private : ptr) : M unit :=
  let ctx := private in
  (if bool_decide (ctx ≠ NULL) then
     c ← load_ctx ctx; kvfree (cwksp c)
   else mret tt);;
  pd ← get_percpu_dctx;
  (if bool_decide (pd ≠ NULL) then
     free_slots possible_cpus;;
     pd ← get_percpu_dctx;
     free_percpu pd;;
     set_percpu_dctx NULL
   else mret tt);;
  kfree ctx.

(** [src] and [dst] are the contents of the caller's buffers, [dst_len] the
    current value of [*dst_len]; the result is the return value with the new
    contents of [dst] and of [*dst_len]. *)
Definition zcomp_zstd_compress (src dst : list byte) (dst_len : Z)
    (private : ptr) : M (Z * list byte * Z) :=
  let ctx := private in
  let params := zstd_params in
  c ← load_ctx ctx;
  let '(len, out) :=
    ZSTD_compressCCtx (cctx c) (2 * PAGE_SIZE) src PAGE_SIZE params in
  let dst := overwrite out dst in
  if bool_decide (ZSTD_isError len ≠ 0) then
    pr_err (CompressError (ZSTD_getErrorCode len));;
    mret (int_of_unsigned (ZSTD_isError len), dst, dst_len)
  else
    mret (0, dst, len).

(** [cpu] is the CPU the caller runs on ([this_cpu_ptr]). *)
Definition zcomp_zstd_decompress (cpu : nat) (src : list byte) (src_len : Z)
    (dst : list byte) : M (Z * list byte) :=
  base ← get_percpu_dctx;
  ctx ← load_slot base cpu;
  let '(ret, out) := ZSTD_decompressDCtx (dctx ctx) PAGE_SIZE src src_len in
  let dst := overwrite out dst in
  if bool_decide (ZSTD_isError ret ≠ 0) then
    pr_err (DecompressError (ZSTD_getErrorCode ret));;
    mret (- EINVAL, dst)
  else
    mret (0, dst).

End Backend.

(** ** A codec and a platform to run the backend on *)

(** Modelled from the spec: a stand-in for the codec, which is not part of
    this file, to run the backend on.  [test_codec] stores the page behind
    a one-byte frame header.  A result is a length or an error: errors are
    the size_t values [-code], [ZSTD_isError] is the boolean-like flag (1
    for anything above [-ZSTD_error_maxCode]) and [ZSTD_getErrorCode] gives
    the diagnostic code back.  The workspace bounds for compression and for
    decompression are two functions with different values.  The three
    switches of [faults] force engine construction or compression to
    fail. *)

Definition ERROR (code : Z) : Z := 2 ^ 64 - code.
Definition ZSTD_error_dstSize_tooSmall : Z := 12.
Definition ZSTD_error_corruption_detected : Z := 14.
Definition ZSTD_error_maxCode : Z := 22.

Record faults := mk_faults {
  cinit_fails : bool;
  dinit_fails : bool;
  compress_fails : option Z }.

Definition no_faults : faults := mk_faults false false None.

Definition is_error (c : Z) : Z :=
  if 2 ^ 64 - ZSTD_error_maxCode <? c then 1 else 0.

Definition error_code (c : Z) : Z :=
  if 2 ^ 64 - ZSTD_error_maxCode <? c then 2 ^ 64 - c else 0.

Definition stored_compress (cap : Z) (src : list byte) (n : Z)
  : Z * list byte :=
  if cap <? n + 1 then (ERROR ZSTD_error_dstSize_tooSmall, [])
  else (n + 1, x00%byte :: take (Z.to_nat n) src).

Definition stored_decompress (cap : Z) (src : list byte) (n : Z)
  : Z * list byte :=
  match take (Z.to_nat n) src with
  | [] => (ERROR ZSTD_error_corruption_detected, [])
  | _ :: body =>
      if cap <? Z.of_nat (length body)
      then (ERROR ZSTD_error_dstSize_tooSmall, [])
      else (Z.of_nat (length body), body)
  end.

Definition test_codec (f : faults) : Codec := {|
  ZSTD_compressionParameters := Z;
  ZSTD_parameters := Z * Z * Z;
  cParams := λ p, p.1.2;
  ZSTD_getParams := λ level size dict, (level, size, dict);
  ZSTD_CCtxWorkspaceBound := λ w, 8 * w + 1024;
  ZSTD_DCtxWorkspaceBound := 159744;
  ZSTD_initCCtx := λ w sz, if cinit_fails f then NULL else w;
  ZSTD_initDCtx := λ w sz, if dinit_fails f then NULL else w;
  ZSTD_compressCCtx := λ h cap src n _,
    match compress_fails f with
    | Some code => (ERROR code, [])
    | None => stored_compress cap src n
    end;
  ZSTD_decompressDCtx := λ h cap src n, stored_decompress cap src n;
  ZSTD_isError := is_error;
  ZSTD_getErrorCode := error_code |}.

Definition test_platform (cpus : nat) : Platform := {|
  PAGE_SIZE := 4096;
  nr_cpu_ids := cpus;
  sizeof_zstd_ctx := 16;
  sizeof_percpu_zstd_dctx := 16;
  poison := 7 |}.

Definition zero_page : list byte := replicate (Z.to_nat 4096) x00%byte.
Definition two_pages : list byte := replicate (Z.to_nat 8192) xff%byte.
Definition stale_page : list byte := replicate (Z.to_nat 4096) xff%byte.

(** The outcome the plan holds for the [n]-th attempt from now. *)
Definition plan_ok (n : nat) (st : kstate) : bool :=
  match drop n (plan st) with
  | [] => true
  | b :: _ => b
  end.

Definition direct_flags : list gfp := [GFP_NOIO; __GFP_NORETRY; __GFP_NOWARN].
Definition fallback_flags : list gfp :=
  [GFP_NOIO; __GFP_NORETRY; __GFP_NOWARN; __GFP_ZERO; __GFP_HIGHMEM].

(** The instance and state a creation from boot leaves, for running the
    operations on. *)
Definition created {P : Platform} {C : Codec} (pl : list bool) : ptr * kstate :=
  default (NULL, boot pl) (zcomp_zstd_create (boot pl)).

Definition compress_refused : faults :=
  mk_faults false false (Some ZSTD_error_dstSize_tooSmall).

(** Two possible CPUs, every allocation succeeds. *)
Definition demo_state (f : faults) : kstate :=
  (@created (test_platform 2) (test_codec f) []).2.

(** Two streams created one after the other, then both destroyed. *)
Definition two_streams {P : Platform} {C : Codec} : M (ptr * ptr) :=
  a ← zcomp_zstd_create;
  b ← zcomp_zstd_create;
  zcomp_zstd_destroy a;;
  zcomp_zstd_destroy b;;
  mret (a, b).

Definition cinit_refused : faults := mk_faults true false None.

(** Two possible CPUs; the direct attempt fails for CPU 0's workspace, which
    then comes from the second tier, and succeeds for everything else. *)
Definition mixed_plan : list bool := [true; true; true; false; true; true].

Definition mixed_state : kstate :=
  (@created (test_platform 2) (test_codec no_faults) mixed_plan).2.

(** Two possible CPUs, for a creation that fails in the pool step: the
    compression workspace comes from the second tier, CPU 0's workspace from
    the first, and both tiers fail for CPU 1. *)
Definition failing_plan : list bool :=
  [true; false; true; true; true; false; false].

(** Three possible CPUs, for [zcomp_zstd_create_percpu]: the table is
    obtained, CPU 0's workspace comes from the second tier, CPU 1's from the
    first, and both tiers fail for CPU 2. *)
Definition rollback_plan : list bool := [true; false; true; true; false; false].

(** The calls destroy makes on the instance itself. *)
Definition instance_frees (private : ptr) (c : zstd_ctx) : list event :=
  (if bool_decide (private ≠ NULL) then [EvFree Kvfree (cwksp c)] else [])
  ++ [EvFree Kfree private].

(** [old a st]: [a] is the address of a block handed out before [st].
    [clean a st]: no slot of the current table holds [a] as its workspace. *)
Definition old (a : Z) (st : kstate) : Prop := 0 < a < Z.pos (brk st).

Definition clean (a : Z) (st : kstate) : Prop :=
  ∀ area cpu s,
    percpu_mem st !! percpu_dctx st = Some area → area !! cpu = Some s →
    dwksp s ≠ a.

(** The sizes of the workspace allocations in a trace: the kzalloc and
    __vmalloc calls, which only [alloc_mem] makes. *)
Definition wksp_size_of (e : event) : option Z :=
  match e with
  | EvAlloc Kzalloc size _ _ | EvAlloc Vmalloc size _ _ => Some size
  | _ => None
  end.

Definition wksp_sizes (evs : list event) : list Z := omap wksp_size_of evs.

Definition sized (size : Z) (evs : list event) : Prop :=
  Forall (λ x, x = size) (wksp_sizes evs).

(** [st'] extends the trace of [st] by workspace allocations of one size. *)
Definition emits (size : Z) (st st' : kstate) : Prop :=
  ∃ evs, trace st' = trace st ++ evs ∧ sized size evs.

Definition cwksp_size {P : Platform} {C : Codec} : Z :=
  ZSTD_CCtxWorkspaceBound (cParams zstd_params).

Definition dwksp_size {C : Codec} : Z := ZSTD_DCtxWorkspaceBound.

(** Modelled from the spec: [ZSTD_isError], which is not part of this file,
    returns an [unsigned int]. *)
Definition isError_unsigned {C : Codec} : Prop :=
  ∀ c, 0 ≤ ZSTD_isError c < 2 ^ 32.

(** Modelled from the spec: the contract of the codec, which is not part
    of this file.  The error flag is an unsigned int, a successful
    compression of a whole buffer fits the capacity it was
    given, and any engine decompresses its output (whatever follows it in
    the buffer) back to the input, given room for it. *)
Record codec_contract {C : Codec} : Prop := {
  isError_range : isError_unsigned;
  compress_fits : ∀ h cap src params len out,
    ZSTD_compressCCtx h cap src (Z.of_nat (length src)) params = (len, out) →
    ZSTD_isError len = 0 →
    0 ≤ len ≤ cap ∧ Z.of_nat (length out) = len;
  decompress_compress : ∀ hc hd cap cap' src params len out rest,
    hc ≠ NULL → hd ≠ NULL →
    ZSTD_compressCCtx hc cap src (Z.of_nat (length src)) params = (len, out) →
    ZSTD_isError len = 0 →
    Z.of_nat (length src) ≤ cap' →
    ∃ r, ZSTD_decompressDCtx hd cap' (out ++ rest) len = (r, src) ∧
         ZSTD_isError r = 0 }.

(** Modelled from the spec: the contract of the codec, which is not part
    of this file, for whole pages.  An engine is built in place over a
    workspace of the size the codec asks for: [ZSTD_CCtxWorkspaceBound] of
    the compression parameters in use, [ZSTD_DCtxWorkspaceBound].  Such a
    compression engine compresses a page into a buffer of two pages without
    error, and such a decompression engine turns the result (whatever
    follows it in the buffer) back into the page, given room for one. *)
Record page_contract {P : Platform} {C : Codec} : Prop := {
  page_compresses : ∀ w level x,
    let params := ZSTD_getParams level PAGE_SIZE 0 in
    let h := ZSTD_initCCtx w (ZSTD_CCtxWorkspaceBound (cParams params)) in
    h ≠ NULL →
    Z.of_nat (length x) = PAGE_SIZE →
    ZSTD_isError (ZSTD_compressCCtx h (2 * PAGE_SIZE) x PAGE_SIZE params).1 = 0;
  page_decompresses : ∀ wc wd level x len out rest,
    let params := ZSTD_getParams level PAGE_SIZE 0 in
    let hc := ZSTD_initCCtx wc (ZSTD_CCtxWorkspaceBound (cParams params)) in
    let hd := ZSTD_initDCtx wd ZSTD_DCtxWorkspaceBound in
    hc ≠ NULL → hd ≠ NULL →
    Z.of_nat (length x) = PAGE_SIZE →
    ZSTD_compressCCtx hc (2 * PAGE_SIZE) x PAGE_SIZE params = (len, out) →
    ZSTD_isError len = 0 →
    ∃ r, ZSTD_decompressDCtx hd PAGE_SIZE (out ++ rest) len = (r, x) ∧
         ZSTD_isError r = 0 }.

(** [same_memory st st']: nothing but the log differs. *)
Definition same_memory (st st' : kstate) : Prop :=
  heap st' = heap st ∧ ctx_mem st' = ctx_mem st ∧
  percpu_mem st' = percpu_mem st ∧ percpu_dctx st' = percpu_dctx st ∧
  brk st' = brk st ∧ plan st' = plan st ∧ trace st' = trace st.

Definition is_alloc (e : event) : Prop :=
  match e with
  | EvAlloc _ _ _ _ => True
  | EvFree _ _ => False
  end.

(** [st'] extends the trace of [st] by allocation calls only. *)
Definition allocs_only (st st' : kstate) : Prop :=
  ∃ evs, trace st' = trace st ++ evs ∧ Forall is_alloc evs.

(** The effect on the bookkeeping of one call of a free function, and of
    calling it on a list of pointers in turn. *)
Definition bump_at (f : free_fn) (p : ptr) (h : gmap Z block) : gmap Z block :=
  if bool_decide (p = NULL) then h else alter (released_by f) p h.

Fixpoint release_all (f : free_fn) (ps : list ptr) (h : gmap Z block)
  : gmap Z block :=
  match ps with
  | [] => h
  | p :: ps => release_all f ps (bump_at f p h)
  end.

(** The calls with which destroy tears a table down: vfree of every slot's
    workspace in CPU order, then free_percpu of the table. *)
Definition pool_frees (t : ptr) (area : list percpu_zstd_dctx) : list event :=
  map (λ s, EvFree Vfree (dwksp s)) area ++ [EvFree Free_percpu t].

(** [wksp_block size n p st]: [p] is a zero-filled workspace block of
    [size] bytes handed out before [st] by one of the two tiers of
    [alloc_mem], and released [n] times since. *)
Definition wksp_block (size : Z) (n : nat) (p : ptr) (st : kstate) : Prop :=
  old p st ∧
  ∃ fn, (fn = Kzalloc ∨ fn = Vmalloc) ∧
        heap st !! p = Some (mkblock fn size true n).

(** [wksp_vfreed size k p st]: the workspace block at [p] after [k] calls of
    vfree on it and no other release.  A vmalloc area has then been released
    [k] times; a slab object (kzalloc) has not been released at all. *)
Definition wksp_vfreed (size : Z) (k : nat) (p : ptr) (st : kstate) : Prop :=
  old p st ∧
  (heap st !! p = Some (mkblock Vmalloc size true k) ∨
   heap st !! p = Some (mkblock Kzalloc size true 0)).

(** A slot whose workspace is live and whose engine was built over it. *)
Definition slot_built {C : Codec} (s : percpu_zstd_dctx) (st : kstate) : Prop :=
  wksp_block dwksp_size 0 (dwksp s) st ∧
  dctx s = ZSTD_initDCtx (dwksp s) dwksp_size ∧ dctx s ≠ NULL.

Definition distinct_wksps (area : list percpu_zstd_dctx) : Prop :=
  ∀ i j si sj, i ≠ j → area !! i = Some si → area !! j = Some sj →
               dwksp si ≠ NULL → dwksp si ≠ dwksp sj.

(** The table while its slots are initialised: the slots of the CPUs in
    [done] are built, with workspaces at or above [lo]; the others are still
    zero. *)
Definition pool_partial {P : Platform} {C : Codec}
    (lo : Z) (done : list nat) (st : kstate) : Prop :=
  ∃ area,
    percpu_mem st !! percpu_dctx st = Some area ∧
    length area = nr_cpu_ids ∧
    (∀ cpu s, area !! cpu = Some s →
       (cpu ∈ done → slot_built s st ∧ lo ≤ dwksp s) ∧
       (cpu ∉ done → s = mk_dctx NULL NULL)) ∧
    distinct_wksps area.

(** The table after a successful creation: one built slot per possible
    CPU, no two sharing a workspace. *)
Definition pool_complete {P : Platform} {C : Codec} (st : kstate) : Prop :=
  percpu_dctx st ≠ NULL ∧
  ∃ area,
    percpu_mem st !! percpu_dctx st = Some area ∧
    length area = nr_cpu_ids ∧
    (∀ cpu s, area !! cpu = Some s → slot_built s st) ∧
    distinct_wksps area.

(** How often the block at [p] has been released. *)
Definition frees (st : kstate) (p : ptr) : option nat :=
  b_frees <$> heap st !! p.

(** A slot of a table whose creation failed with [r]: never touched, or
    built and vfree called [n] times on its workspace since, or (only after
    an engine-construction failure) left without an engine, vfree called [m]
    times on its workspace. *)
Definition slot_rolled {C : Codec} (r : Z) (n m : nat)
    (s : percpu_zstd_dctx) (st : kstate) : Prop :=
  s = mk_dctx NULL NULL ∨
  (dctx s ≠ NULL ∧ wksp_vfreed dwksp_size n (dwksp s) st) ∨
  (r = - EINVAL ∧ dctx s = NULL ∧
   ZSTD_initDCtx (dwksp s) dwksp_size = NULL ∧
   wksp_vfreed dwksp_size m (dwksp s) st).

(** The table after a failed creation; the workspaces lie at or above
    [lo]. *)
Definition pool_rolled {P : Platform} {C : Codec} (lo : Z) (r : Z) (n m : nat)
    (st : kstate) : Prop :=
  ∃ area,
    percpu_mem st !! percpu_dctx st = Some area ∧
    length area = nr_cpu_ids ∧
    (∀ cpu s, area !! cpu = Some s →
       slot_rolled r n m s st ∧ (dwksp s ≠ NULL → lo ≤ dwksp s)) ∧
    distinct_wksps area.

(** The state a run ends in (the state it started from, if it faults). *)
Definition run_state {A} (m : M A) (st : kstate) : kstate :=
  match m st with
  | Some (_, st') => st'
  | None => st
  end.

(** ** Reasoning about runs *)

Lemma bind_inv {A B} (m : M A) (f : A → M B) st b st' :
  (m ≫= f) st = Some (b, st') →
  ∃ a st1, m st = Some (a, st1) ∧ f a st1 = Some (b, st').
Proof.
  unfold mbind, M_bind. destruct (m st) as [[a st1]|]; [eauto | discriminate].
Qed.

Lemma bind_run {A B} (m : M A) (f : A → M B) st a st1 :
  m st = Some (a, st1) → (m ≫= f) st = f a st1.
Proof. unfold mbind, M_bind. by intros ->. Qed.

Lemma ret_inv {A} (a b : A) st st' :
  (mret a : M A) st = Some (b, st') → b = a ∧ st' = st.
Proof. unfold mret, M_ret. by intros [= -> ->]. Qed.

Lemma attempt_inv fn size flags z st p st' :
  attempt fn size flags z st = Some (p, st') →
  p = (if next_ok st then Z.pos (brk st) else NULL) ∧
  st' = mk_kstate
      (if next_ok st then <[Z.pos (brk st) := mkblock fn size z 0]> (heap st)
       else heap st)
      (ctx_mem st) (percpu_mem st) (percpu_dctx st)
      (if next_ok st then (brk st + Z.to_pos size)%positive else brk st)
      (tail (plan st)) (klog st)
      (trace st ++ [EvAlloc fn size flags p]).
Proof. unfold attempt. by intros [= <- <-]. Qed.

Lemma release_inv fn p st u st' :
  release fn p st = Some (u, st') →
  st' = mk_kstate
      (if bool_decide (p = NULL) then heap st
       else alter (released_by fn) p (heap st))
      (ctx_mem st) (percpu_mem st) (percpu_dctx st) (brk st) (plan st)
      (klog st) (trace st ++ [EvFree fn p]).
Proof. unfold release. by intros [= <-]. Qed.

Lemma load_ctx_inv p st c st' :
  load_ctx p st = Some (c, st') → ctx_mem st !! p = Some c ∧ st' = st.
Proof.
  unfold load_ctx. destruct (ctx_mem st !! p); simpl; [|discriminate].
  by intros [= <- <-].
Qed.

Lemma store_ctx_inv p c st u st' :
  store_ctx p c st = Some (u, st') →
  is_Some (ctx_mem st !! p) ∧
  st' = mk_kstate (heap st) (<[p := c]> (ctx_mem st)) (percpu_mem st)
                  (percpu_dctx st) (brk st) (plan st) (klog st) (trace st).
Proof.
  unfold store_ctx. destruct (ctx_mem st !! p); simpl; [|discriminate].
  intros [= <-]. eauto.
Qed.

Lemma load_slot_inv base cpu st s st' :
  load_slot base cpu st = Some (s, st') →
  (∃ area, percpu_mem st !! base = Some area ∧ area !! cpu = Some s) ∧ st' = st.
Proof.
  unfold load_slot. destruct (percpu_mem st !! base) as [area|]; simpl;
    [|discriminate].
  destruct (area !! cpu) eqn:E; simpl; [|discriminate].
  intros [= <- <-]. eauto.
Qed.

Lemma store_slot_inv base cpu s st u st' :
  store_slot base cpu s st = Some (u, st') →
  ∃ area, percpu_mem st !! base = Some area ∧ is_Some (area !! cpu) ∧
  st' = mk_kstate (heap st) (ctx_mem st)
                  (<[base := <[cpu := s]> area]> (percpu_mem st))
                  (percpu_dctx st) (brk st) (plan st) (klog st) (trace st).
Proof.
  unfold store_slot. destruct (percpu_mem st !! base) as [area|]; simpl;
    [|discriminate].
  destruct (area !! cpu) eqn:E; simpl; [|discriminate].
  intros [= <-]. eauto.
Qed.

Lemma get_percpu_dctx_inv st p st' :
  get_percpu_dctx st = Some (p, st') → p = percpu_dctx st ∧ st' = st.
Proof. unfold get_percpu_dctx. by intros [= <- <-]. Qed.

Lemma set_percpu_dctx_inv p st u st' :
  set_percpu_dctx p st = Some (u, st') →
  st' = mk_kstate (heap st) (ctx_mem st) (percpu_mem st) p
                  (brk st) (plan st) (klog st) (trace st).
Proof. unfold set_percpu_dctx. by intros [= <-]. Qed.

Lemma map_ctx_inv p c st u st' :
  map_ctx p c st = Some (u, st') →
  st' = mk_kstate (heap st) (<[p := c]> (ctx_mem st)) (percpu_mem st)
                  (percpu_dctx st) (brk st) (plan st) (klog st) (trace st).
Proof. unfold map_ctx. by intros [= <-]. Qed.

Lemma map_area_inv p a st u st' :
  map_area p a st = Some (u, st') →
  st' = mk_kstate (heap st) (ctx_mem st) (<[p := a]> (percpu_mem st))
                  (percpu_dctx st) (brk st) (plan st) (klog st) (trace st).
Proof. unfold map_area. by intros [= <-]. Qed.

(** Take a run apart into the runs of its steps. *)
Ltac run_inv :=
  repeat match goal with
  | H : (_ ≫= _) _ = Some _ |- _ =>
      let a := fresh "a" in let s := fresh "s" in let E := fresh "E" in
      apply bind_inv in H; destruct H as (a & s & E & H)
  | H : mret _ _ = Some _ |- _ => apply ret_inv in H; destruct H as [? ?]
  | H : release _ _ _ = Some _ |- _ => apply release_inv in H
  | H : get_percpu_dctx _ = Some _ |- _ =>
      apply get_percpu_dctx_inv in H; destruct H as [? ?]
  | H : set_percpu_dctx _ _ = Some _ |- _ => apply set_percpu_dctx_inv in H
  | H : map_ctx _ _ _ = Some _ |- _ => apply map_ctx_inv in H
  | H : map_area _ _ _ = Some _ |- _ => apply map_area_inv in H
  | H : load_ctx _ _ = Some _ |- _ => apply load_ctx_inv in H; destruct H as [? ?]
  | H : store_ctx _ _ _ = Some _ |- _ =>
      apply store_ctx_inv in H; destruct H as [? ?]
  | H : load_slot _ _ _ = Some _ |- _ =>
      apply load_slot_inv in H; destruct H as [(? & ? & ?) ?]
  | H : store_slot _ _ _ _ = Some _ |- _ =>
      apply store_slot_inv in H; destruct H as (? & ? & ? & ?)
  end.

Ltac run_all :=
  repeat (run_inv; try case_bool_decide); subst; simpl in *.

Section Allocator.
Context {P : Platform} {C : Codec}.

(** C6.  For every byte count, [alloc_mem] first tries the direct zeroed
    allocation (kzalloc, non-blocking flags); the virtual-memory-backed
    attempt (__vmalloc with __GFP_ZERO) is made if and only if the direct
    one returned NULL; a non-NULL result is a zero-filled live block of the
    requested size; and the result is NULL exactly when both tiers fail. *)
Theorem alloc_mem_two_tiers (size : Z) (st : kstate) :
  ∃ p st' k,
    alloc_mem size st = Some (p, st') ∧
    (∃ evs,
        trace st' = trace st ++ EvAlloc Kzalloc size direct_flags k :: evs ∧
        ((k ≠ NULL ∧ evs = [] ∧ p = k) ∨
         (k = NULL ∧ evs = [EvAlloc Vmalloc size fallback_flags p]))) ∧
    (p ≠ NULL →
       ∃ b, heap st' !! p = Some b ∧
            b_size b = size ∧ b_zeroed b = true ∧ b_frees b = 0%nat) ∧
    (p = NULL ↔ plan_ok 0 st = false ∧ plan_ok 1 st = false).
Proof.
  destruct st as [h cm pm pd b pl lg tr].
  unfold alloc_mem, kzalloc, __vmalloc, plan_ok, mbind, M_bind, attempt, next_ok.
  destruct pl as [|[] pl]; [| |destruct pl as [|[] pl]]; simpl;
    (eexists _, _, _; split; [reflexivity|]); simpl.
  all: split; [eexists; rewrite <- ?app_assoc; split; [reflexivity|]|].
  all: try (left; done); try (right; done).
  all: split; [try done; intros _; eexists; by rewrite lookup_insert_eq|].
  all: split; try done; intros [? ?]; done.
Qed.

End Allocator.

Lemma alloc_mem_two_tiers_witness :
  ∃ p st' k,
    alloc_mem 64 (boot [false; true]) = Some (p, st') ∧
    (∃ evs,
        trace st' = trace (boot [false; true])
                    ++ EvAlloc Kzalloc 64 direct_flags k :: evs ∧
        ((k ≠ NULL ∧ evs = [] ∧ p = k) ∨
         (k = NULL ∧ evs = [EvAlloc Vmalloc 64 fallback_flags p]))) ∧
    (p ≠ NULL →
       ∃ b, heap st' !! p = Some b ∧
            b_size b = 64 ∧ b_zeroed b = true ∧ b_frees b = 0%nat) ∧
    (p = NULL ↔ plan_ok 0 (boot [false; true]) = false ∧
                plan_ok 1 (boot [false; true]) = false).
Proof. apply (alloc_mem_two_tiers 64 (boot [false; true])). Defined.

(** ** The test codec honours the contract *)

Lemma is_error_unsigned f : @isError_unsigned (test_codec f).
Proof. intros c. simpl. unfold is_error. case_match; lia. Qed.

Lemma test_codec_contract : @codec_contract (test_codec no_faults).
Proof.
  split; [apply is_error_unsigned| |];
    simpl; unfold stored_compress, is_error, ERROR.
  - intros _ cap src _ len out H Hok.
    destruct (cap <? Z.of_nat (length src) + 1) eqn:Hcap; injection H as <- <-.
    + by vm_compute in Hok.
    + apply Z.ltb_ge in Hcap. rewrite Nat2Z.id, firstn_all. simpl. lia.
  - intros _ _ cap cap' src _ len out rest _ _ H Hok Hroom.
    destruct (cap <? Z.of_nat (length src) + 1) eqn:Hcap; injection H as <- <-.
    + by vm_compute in Hok.
    + unfold stored_decompress.
      replace (Z.to_nat (Z.of_nat (length src) + 1)) with (S (length src)) by lia.
      rewrite Nat2Z.id, firstn_all. simpl.
      rewrite take_app_length.
      destruct (cap' <? Z.of_nat (length src)) eqn:Hc; [apply Z.ltb_lt in Hc; lia|].
      eexists. split; [reflexivity|].
      repeat case_match; lia.
Qed.

Lemma test_page_contract :
  @page_contract (test_platform 2) (test_codec no_faults).
Proof.
  split; simpl; unfold stored_compress.
  - intros _ _ x _ Hx. reflexivity.
  - intros _ _ _ x len out rest _ _ Hx H _. simpl in H.
    injection H as <- <-.
    unfold stored_decompress.
    replace (Z.to_nat 4096) with (length x) by lia.
    replace (Z.to_nat (4096 + 1)) with (S (length x)) by lia.
    rewrite firstn_all. simpl. rewrite take_app_length.
    destruct (4096 <? Z.of_nat (length x)) eqn:Hc; [apply Z.ltb_lt in Hc; lia|].
    eexists. split; [reflexivity|]. rewrite Hx. reflexivity.
Qed.

Section Compress.
Context {P : Platform} {C : Codec}.

(** What [zcomp_zstd_compress] does, given the codec's answer. *)
Lemma compress_run src dst dst_len ctx st c len out :
  ctx_mem st !! ctx = Some c →
  ZSTD_compressCCtx (cctx c) (2 * PAGE_SIZE) src PAGE_SIZE zstd_params
    = (len, out) →
  zcomp_zstd_compress src dst dst_len ctx st =
    if bool_decide (ZSTD_isError len ≠ 0) then
      Some (int_of_unsigned (ZSTD_isError len), overwrite out dst, dst_len,
            mk_kstate (heap st) (ctx_mem st) (percpu_mem st) (percpu_dctx st)
              (brk st) (plan st)
              (klog st ++ [CompressError (ZSTD_getErrorCode len)]) (trace st))
    else Some (0, overwrite out dst, len, st).
Proof.
  intros Hc Hz. unfold zcomp_zstd_compress.
  erewrite bind_run; [|unfold load_ctx; rewrite Hc; reflexivity].
  rewrite Hz. by case_bool_decide.
Qed.

Lemma compress_faults src dst dst_len ctx st :
  ctx_mem st !! ctx = None →
  zcomp_zstd_compress src dst dst_len ctx st = None.
Proof.
  intros Hc. unfold zcomp_zstd_compress, mbind, M_bind, load_ctx.
  by rewrite Hc.
Qed.

Lemma int_of_unsigned_nonzero u :
  0 ≤ u < 2 ^ 32 → u ≠ 0 → int_of_unsigned u ≠ 0.
Proof. unfold int_of_unsigned. case_match; lia. Qed.

(** C5.  Under the codec's contract, whenever compress of a one-page input
    returns zero, the length it reports is at most 2 * PAGE_SIZE, the
    capacity it passed to the codec. *)
Theorem compress_length_bound src dst dst_len ctx st ret dst' len st' :
  codec_contract →
  Z.of_nat (length src) = PAGE_SIZE →
  zcomp_zstd_compress src dst dst_len ctx st = Some (ret, dst', len, st') →
  ret = 0 →
  0 ≤ len ≤ 2 * PAGE_SIZE.
Proof.
  intros HC Hpage Hrun ->.
  destruct (ctx_mem st !! ctx) as [c|] eqn:Hc;
    [|by rewrite compress_faults in Hrun].
  destruct (ZSTD_compressCCtx (cctx c) (2 * PAGE_SIZE) src PAGE_SIZE zstd_params)
    as [n out] eqn:Hz.
  rewrite (compress_run _ _ _ _ _ _ _ _ Hc Hz) in Hrun.
  case_bool_decide as Herr.
  - (* the error path returns a non-zero value *)
    inversion Hrun as [[Hret Hd Hl Hs]].
    by apply int_of_unsigned_nonzero in Hret; [|apply (isError_range HC)|].
  - inversion Hrun as [[Hd Hl Hs]]. subst len.
    rewrite <- Hpage in Hz.
    apply (compress_fits HC) in Hz as [? _]; [lia|].
    destruct (decide (ZSTD_isError n = 0)); [done|]. by destruct Herr.
Qed.

(** C8, as the code has it.  Compress returns zero exactly when the codec
    succeeds, and then hands the compressed length to the caller; when the
    codec reports an error, compress logs the codec's diagnostic code and
    returns the (non-zero) error flag [ZSTD_isError(len)], not the code. *)
Theorem compress_error_reporting src dst dst_len ctx st c len out :
  isError_unsigned →
  ctx_mem st !! ctx = Some c →
  ZSTD_compressCCtx (cctx c) (2 * PAGE_SIZE) src PAGE_SIZE zstd_params
    = (len, out) →
  ∃ ret dst' n st',
    zcomp_zstd_compress src dst dst_len ctx st = Some (ret, dst', n, st') ∧
    (ret = 0 ↔ ZSTD_isError len = 0) ∧
    (ZSTD_isError len ≠ 0 →
       ret = int_of_unsigned (ZSTD_isError len) ∧
       klog st' = klog st ++ [CompressError (ZSTD_getErrorCode len)]) ∧
    (ZSTD_isError len = 0 → n = len ∧ klog st' = klog st).
Proof.
  intros Hu Hc Hz. rewrite (compress_run _ _ _ _ _ _ _ _ Hc Hz).
  case_bool_decide as Herr.
  - eexists _, _, _, _. split; [reflexivity|]. simpl.
    pose proof (int_of_unsigned_nonzero _ (Hu len) Herr).
    repeat split; try done.
  - eexists _, _, _, _. split; [reflexivity|].
    assert (ZSTD_isError len = 0) by (destruct (decide (ZSTD_isError len = 0)); tauto).
    repeat split; try done.
Qed.

(** C10.  When the codec reports an error, compress leaves the caller's
    [*dst_len] as it was. *)
Theorem compress_error_keeps_dst_len
    src dst dst_len ctx st c len out ret dst' n st' :
  ctx_mem st !! ctx = Some c →
  ZSTD_compressCCtx (cctx c) (2 * PAGE_SIZE) src PAGE_SIZE zstd_params
    = (len, out) →
  ZSTD_isError len ≠ 0 →
  zcomp_zstd_compress src dst dst_len ctx st = Some (ret, dst', n, st') →
  n = dst_len.
Proof.
  intros Hc Hz Herr. rewrite (compress_run _ _ _ _ _ _ _ _ Hc Hz).
  rewrite bool_decide_true by done. by intros [= _ _ <- _].
Qed.

End Compress.

(** The theorems above at the zero page, two possible CPUs. *)

Lemma compress_length_bound_witness :
  0 ≤ 4097 ≤ 2 * @PAGE_SIZE (test_platform 2).
Proof.
  apply (@compress_length_bound (test_platform 2) (test_codec no_faults)
           zero_page two_pages 0 4096 (demo_state no_faults)
           0 (overwrite (x00%byte :: zero_page) two_pages) 4097 (demo_state no_faults)
           test_codec_contract);
    [reflexivity | vm_compute; reflexivity | reflexivity].
Defined.

Lemma compress_error_reporting_witness :
  ∃ ret dst' n st',
    @zcomp_zstd_compress (test_platform 2) (test_codec compress_refused)
      zero_page two_pages 0 4096 (demo_state compress_refused) = Some (ret, dst', n, st') ∧
    (ret = 0 ↔ is_error (ERROR 12) = 0) ∧
    (is_error (ERROR 12) ≠ 0 →
       ret = int_of_unsigned (is_error (ERROR 12)) ∧
       klog st' = klog (demo_state compress_refused) ++ [CompressError (error_code (ERROR 12))]) ∧
    (is_error (ERROR 12) = 0 → n = ERROR 12 ∧ klog st' = klog (demo_state compress_refused)).
Proof.
  apply (@compress_error_reporting (test_platform 2) (test_codec compress_refused)
           zero_page two_pages 0 4096 (demo_state compress_refused) (mk_ctx 4112 4112)
           (ERROR 12) [] (is_error_unsigned _));
    [vm_compute; reflexivity | reflexivity].
Defined.

Lemma compress_error_keeps_dst_len_witness : 77 = 77.
Proof.
  apply (@compress_error_keeps_dst_len (test_platform 2)
           (test_codec compress_refused)
           zero_page two_pages 77 4096 (demo_state compress_refused) (mk_ctx 4112 4112)
           (ERROR 12) [] 1 two_pages 77
           (mk_kstate (heap (demo_state compress_refused)) (ctx_mem (demo_state compress_refused))
              (percpu_mem (demo_state compress_refused)) (percpu_dctx (demo_state compress_refused))
              (brk (demo_state compress_refused)) (plan (demo_state compress_refused))
              [CompressError 12] (trace (demo_state compress_refused))));
    [vm_compute; reflexivity | reflexivity | vm_compute; discriminate
    | vm_compute; reflexivity].
Defined.

(** C8, as stated, fails: the codec refuses with dstSize_tooSmall (12), the
    diagnostic code goes to the log, and compress returns the flag 1. *)
Lemma compress_returns_flag_not_code :
  (λ r, (r.1.1.1, klog r.2)) <$>
    @zcomp_zstd_compress (test_platform 2) (test_codec compress_refused)
      zero_page two_pages 0 4096 (demo_state compress_refused)
    = Some (1, [CompressError 12]) ∧
  @ZSTD_getErrorCode (test_codec compress_refused)
    (@ZSTD_compressCCtx (test_codec compress_refused) 4112 (2 * 4096)
       zero_page 4096 (@zstd_params (test_platform 2) _)).1 = 12.
Proof. split; vm_compute; reflexivity. Qed.

(** ** The outcome of engine initialisation, in closed form *)

Section Outcomes.
Context {P : Platform} {C : Codec}.

Lemma alloc_percpu_inv st p st' :
  alloc_percpu st = Some (p, st') →
  ∃ st1,
    attempt Alloc_percpu sizeof_percpu_zstd_dctx [GFP_KERNEL] true st
      = Some (p, st1) ∧
    ((p = NULL ∧ st' = st1) ∨
     (p ≠ NULL ∧
      st' = mk_kstate (heap st1) (ctx_mem st1)
              (<[p := replicate nr_cpu_ids (mk_dctx NULL NULL)]> (percpu_mem st1))
              (percpu_dctx st1) (brk st1) (plan st1) (klog st1) (trace st1))).
Proof.
  unfold alloc_percpu. intros H. run_inv.
  case_bool_decide; run_inv; subst; (eexists; split; [done|]); eauto.
Qed.

Lemma kmalloc_zstd_ctx_inv st p st' :
  kmalloc_zstd_ctx st = Some (p, st') →
  ∃ st1,
    attempt Kmalloc sizeof_zstd_ctx [GFP_KERNEL] (has_zero [GFP_KERNEL]) st
      = Some (p, st1) ∧
    ((p = NULL ∧ st' = st1) ∨
     (p ≠ NULL ∧
      st' = mk_kstate (heap st1) (<[p := mk_ctx poison poison]> (ctx_mem st1))
              (percpu_mem st1) (percpu_dctx st1) (brk st1) (plan st1)
              (klog st1) (trace st1))).
Proof.
  unfold kmalloc_zstd_ctx, kmalloc. intros H. run_inv.
  case_bool_decide; run_inv; subst; (eexists; split; [done|]); eauto.
Qed.

Lemma zstd_decomp_init_inv base cpu st r st' :
  zstd_decomp_init base cpu st = Some (r, st') →
  ∃ w st1 area s0 h,
    alloc_mem ZSTD_DCtxWorkspaceBound st = Some (w, st1) ∧
    percpu_mem st1 !! base = Some area ∧ area !! cpu = Some s0 ∧
    percpu_mem st' = <[base := <[cpu := mk_dctx w h]> area]> (percpu_mem st1) ∧
    percpu_dctx st' = percpu_dctx st1 ∧ ctx_mem st' = ctx_mem st1 ∧
    klog st' = klog st1 ∧ brk st' = brk st1 ∧ plan st' = plan st1 ∧
    ((w = NULL ∧ r = - ENOMEM ∧ h = dctx s0 ∧
      heap st' = heap st1 ∧ trace st' = trace st1) ∨
     (w ≠ NULL ∧ h = ZSTD_initDCtx w ZSTD_DCtxWorkspaceBound ∧
      ((h ≠ NULL ∧ r = 0 ∧ heap st' = heap st1 ∧ trace st' = trace st1) ∨
       (h = NULL ∧ r = - EINVAL ∧
        heap st' = alter (released_by Vfree) w (heap st1) ∧
        trace st' = trace st1 ++ [EvFree Vfree w])))).
Proof.
  unfold zstd_decomp_init, vfree. intros H. run_all.
  all: rewrite ?lookup_insert_eq in *; simplify_eq; simpl in *.
  all: rewrite ?insert_insert_eq, ?list_insert_insert_eq in *.
  all: rewrite ?list_lookup_insert_eq in * by (by eapply lookup_lt_Some).
  all: simplify_eq; simpl in *.
  all: eexists _, _, _, _, _; split; [eassumption|].
  all: split_and!; eauto 10.
Qed.

Lemma zstd_comp_init_inv ctx st r st' :
  zstd_comp_init ctx st = Some (r, st') →
  let size := ZSTD_CCtxWorkspaceBound (cParams zstd_params) in
  ∃ w st1 c0 h,
    alloc_mem size st = Some (w, st1) ∧
    ctx_mem st1 !! ctx = Some c0 ∧
    ctx_mem st' = <[ctx := mk_ctx w h]> (ctx_mem st1) ∧
    percpu_mem st' = percpu_mem st1 ∧
    percpu_dctx st' = percpu_dctx st1 ∧
    klog st' = klog st1 ∧ brk st' = brk st1 ∧ plan st' = plan st1 ∧
    ((w = NULL ∧ r = - ENOMEM ∧ h = cctx c0 ∧
      heap st' = heap st1 ∧ trace st' = trace st1) ∨
     (w ≠ NULL ∧ h = ZSTD_initCCtx w size ∧
      ((h ≠ NULL ∧ r = 0 ∧ heap st' = heap st1 ∧ trace st' = trace st1) ∨
       (h = NULL ∧ r = - EINVAL ∧
        heap st' = alter (released_by Vfree) w (heap st1) ∧
        trace st' = trace st1 ++ [EvFree Vfree w])))).
Proof.
  unfold zstd_comp_init, vfree. intros H. run_all.
  all: rewrite ?lookup_insert_eq in *; simplify_eq; simpl in *.
  all: rewrite ?insert_insert_eq.
  all: eexists _, _, _, _; split; [eassumption|].
  all: split_and!; eauto 10.
Qed.

End Outcomes.

(** ** What a call leaves alone

    [a] is the address of a block handed out earlier, so it lies below the
    break.  A call leaves the bookkeeping of [a] alone as long as it releases
    no pointer equal to [a]; fresh blocks come from the break and are never
    [a]. *)

Section Frames.
Context {P : Platform} {C : Codec}.

Lemma attempt_frame fn size flags z st p st' a :
  attempt fn size flags z st = Some (p, st') →
  old a st →
  heap st' !! a = heap st !! a ∧ old a st' ∧ p ≠ a ∧
  ctx_mem st' = ctx_mem st ∧ percpu_mem st' = percpu_mem st ∧
  percpu_dctx st' = percpu_dctx st ∧ klog st' = klog st.
Proof.
  unfold old. intros H Ha. apply attempt_inv in H as [-> ->]. simpl.
  destruct (next_ok st); simpl.
  - rewrite lookup_insert_ne by lia. rewrite Pos2Z.inj_add.
    repeat split; try done; lia.
  - repeat split; try done; unfold NULL; lia.
Qed.

Lemma alloc_mem_frame size st w st' a :
  alloc_mem size st = Some (w, st') →
  old a st →
  heap st' !! a = heap st !! a ∧ old a st' ∧ w ≠ a ∧
  ctx_mem st' = ctx_mem st ∧ percpu_mem st' = percpu_mem st ∧
  percpu_dctx st' = percpu_dctx st ∧ klog st' = klog st.
Proof.
  unfold alloc_mem, kzalloc, __vmalloc. intros H Ha. run_inv.
  destruct (attempt_frame _ _ _ _ _ _ _ a E Ha)
    as (Hh & Hb & Hw & Hc & Hpm & Hpd & Hl).
  case_bool_decide; run_inv; subst.
  - destruct (attempt_frame _ _ _ _ _ _ _ a H Hb)
      as (Hh' & Hb' & Hw' & Hc' & Hpm' & Hpd' & Hl').
    split_and!; try done; congruence.
  - split_and!; done.
Qed.

Lemma release_frame fn p st u st' a :
  release fn p st = Some (u, st') → p ≠ a →
  heap st' !! a = heap st !! a.
Proof.
  intros H Hp. run_inv. subst. simpl.
  case_bool_decide; [done|]. by rewrite lookup_alter_ne.
Qed.

Lemma zstd_comp_init_frame ctx st r st' a :
  zstd_comp_init ctx st = Some (r, st') →
  old a st →
  heap st' !! a = heap st !! a ∧ old a st' ∧
  percpu_mem st' = percpu_mem st ∧ percpu_dctx st' = percpu_dctx st ∧
  klog st' = klog st ∧
  ∃ c, ctx_mem st' !! ctx = Some c ∧ cwksp c ≠ a ∧
       (r = 0 → cctx c ≠ NULL).
Proof.
  unfold zstd_comp_init, vfree. intros H Ha. run_inv.
  destruct (alloc_mem_frame _ _ _ _ a E Ha) as (Hh & Hb & Hw & Hc & Hpm & Hpd & Hl).
  run_all; unfold old in *; simpl.
  all: rewrite ?lookup_insert_eq in *; simplify_eq; simpl in *.
  all: rewrite ?lookup_alter_ne by done; rewrite ?lookup_insert_eq.
  all: split_and!; eauto; try lia; done.
Qed.

Lemma zstd_decomp_init_frame cpu st r st' a :
  zstd_decomp_init (percpu_dctx st) cpu st = Some (r, st') →
  old a st → clean a st →
  heap st' !! a = heap st !! a ∧ old a st' ∧ clean a st' ∧
  percpu_dctx st' = percpu_dctx st ∧ ctx_mem st' = ctx_mem st ∧
  klog st' = klog st.
Proof.
  intros H Ha Hcl.
  apply zstd_decomp_init_inv in H
    as (w & st1 & area & s0 & h & E & Harea & Hs0 & Hpm & Hpd & Hcm & Hlg & Hbrk & _ & Hcase).
  destruct (alloc_mem_frame _ _ _ _ a E Ha) as (Hh & Hb & Hw & Hc1 & Hpm1 & Hpd1 & Hl1).
  assert (heap st' !! a = heap st !! a) as Hheap.
  { destruct Hcase as [(_ & _ & _ & -> & _)|(_ & _ & [(_ & _ & -> & _)|(_ & _ & -> & _)])];
      rewrite ?lookup_alter_ne by done; done. }
  split_and!; try congruence.
  - unfold old in *. by rewrite Hbrk.
  - intros area' cpu' s' Hl Hs. rewrite Hpm, Hpd, Hpd1, lookup_insert_eq in Hl.
    injection Hl as <-.
    apply list_lookup_insert_Some in Hs as [(-> & <- & _)|(_ & Hs)]; [done|].
    eapply Hcl; [|done]. by rewrite <- Hpm1.
Qed.

Lemma init_slots_frame cpus st r st' a :
  init_slots cpus st = Some (r, st') →
  old a st → clean a st →
  heap st' !! a = heap st !! a ∧ old a st' ∧ clean a st' ∧
  percpu_dctx st' = percpu_dctx st ∧ ctx_mem st' = ctx_mem st ∧
  klog st' = klog st.
Proof.
  revert st. induction cpus as [|cpu cpus IH]; simpl; intros st H Ha Hcl.
  - run_inv. by subst.
  - run_inv. subst.
    destruct (zstd_decomp_init_frame _ _ _ _ a E0 Ha Hcl)
      as (Hh & Hb & Hc & Hpd & Hcm & Hl).
    case_bool_decide; run_inv; subst; [done|].
    destruct (IH _ H Hb Hc) as (Hh' & Hb' & Hc' & Hpd' & Hcm' & Hl').
    split_and!; try done; congruence.
Qed.

Lemma free_slots_frame cpus st u st' a :
  free_slots cpus st = Some (u, st') →
  clean a st →
  heap st' !! a = heap st !! a ∧ brk st' = brk st ∧
  percpu_mem st' = percpu_mem st ∧ percpu_dctx st' = percpu_dctx st ∧
  ctx_mem st' = ctx_mem st ∧ klog st' = klog st ∧ plan st' = plan st.
Proof.
  revert st. induction cpus as [|cpu cpus IH]; simpl; intros st H Hcl.
  - run_inv. by subst.
  - unfold vfree in H. run_inv. subst.
    match goal with
    | H : free_slots _ ?s = _ |- _ =>
        assert (clean a s) as Hcl' by (intros ???; apply Hcl);
        destruct (IH _ H Hcl') as (Hh & Hb & Hpm & Hpd & Hcm & Hl & Hp)
    end.
    simpl in *. split_and!; try done.
    rewrite Hh. case_bool_decide; [done|].
    rewrite lookup_alter_ne; [done|]. by eapply Hcl.
Qed.

Lemma zcomp_zstd_create_percpu_frame ctx st r st' a :
  zcomp_zstd_create_percpu ctx st = Some (r, st') →
  old a st →
  heap st' !! a = heap st !! a ∧ old a st' ∧ ctx_mem st' = ctx_mem st ∧
  klog st' = klog st.
Proof.
  unfold zcomp_zstd_create_percpu. intros H Ha.
  apply bind_inv in H as (p & st2 & Hap & H).
  apply alloc_percpu_inv in Hap as (st1 & E1 & Hcase).
  destruct (attempt_frame _ _ _ _ _ _ _ a E1 Ha)
    as (Hh & Hb & Hp & Hcm & Hpm & Hpd & Hl).
  apply bind_inv in H as (u & st3 & Hset & H).
  apply set_percpu_dctx_inv in Hset.
  destruct Hcase as [[-> ->]|[Hnn ->]].
  - rewrite bool_decide_true in H by done. run_inv. by subst.
  - rewrite bool_decide_false in H by done.
    apply bind_inv in H as (ret & st4 & Hinit & H).
    assert (old a st3) as Ha' by (by subst).
    assert (clean a st3) as Hcl.
    { subst st3. intros area cpu s. simpl. rewrite lookup_insert_eq.
      intros [= <-]. intros [-> _]%lookup_replicate. simpl.
      unfold old, NULL in *. lia. }
    destruct (init_slots_frame _ _ _ _ a Hinit Ha' Hcl)
      as (Hh' & Hb' & Hc' & Hpd' & Hcm' & Hl').
    subst st3. simpl in *.
    case_bool_decide.
    + apply bind_inv in H as (u' & st5 & Hfree & H). run_inv. subst.
      destruct (free_slots_frame _ _ _ _ a Hfree Hc')
        as (Hh2 & Hb2 & _ & _ & Hcm2 & Hl2 & _).
      unfold old in *. rewrite Hb2. split_and!; try congruence; lia.
    + run_inv. subst. split_and!; try congruence; done.
Qed.

End Frames.

(** ** Creation *)

Section Create.
Context {P : Platform} {C : Codec}.

Lemma create_failed_inv ctx st p st' :
  create_failed ctx st = Some (p, st') →
  ∃ c, ctx_mem st !! ctx = Some c ∧ p = NULL ∧
       ctx_mem st' = ctx_mem st ∧
       heap st' = (if bool_decide (cwksp c = NULL) then heap st
                   else alter (released_by Kvfree) (cwksp c) (heap st)) ∧
       percpu_dctx st' = percpu_dctx st ∧ percpu_mem st' = percpu_mem st ∧
       trace st' = trace st ++ [EvFree Kvfree (cwksp c)].
Proof.
  unfold create_failed, kvfree. intros H. run_inv. subst. simpl. eauto 10.
Qed.


(** Whenever the table was obtained and a slot then fails, the static
    pointer still refers to the table and the table has not been released. *)
Lemma create_percpu_failure_general ctx st r st' :
  next_ok st = true →
  zcomp_zstd_create_percpu ctx st = Some (r, st') →
  r ≠ 0 →
  percpu_dctx st' = Z.pos (brk st) ∧
  heap st' !! Z.pos (brk st) =
    Some (mkblock Alloc_percpu sizeof_percpu_zstd_dctx true 0).
Proof.
  unfold zcomp_zstd_create_percpu. intros Hok H Hr.
  apply bind_inv in H as (p & st2 & Hap & H).
  apply alloc_percpu_inv in Hap as (st1 & Hat & Hcase).
  apply attempt_inv in Hat as [-> ->]. rewrite Hok in *.
  destruct Hcase as [[[=] _]|[_ ->]].
  apply bind_inv in H as (u & st3 & Hset & H).
  apply set_percpu_dctx_inv in Hset. simpl in Hset.
  rewrite bool_decide_false in H by done.
  set (a := Z.pos (brk st)) in *.
  apply bind_inv in H as (ret & st4 & Hinit & H).
  assert (old a st3) as Hold
    by (subst st3; unfold old; simpl; rewrite Pos2Z.inj_add; lia).
  assert (clean a st3) as Hcl.
  { subst st3. intros area cpu s. simpl. rewrite lookup_insert_eq.
    intros [= <-]. intros [-> _]%lookup_replicate. done. }
  assert (heap st3 !! a = Some (mkblock Alloc_percpu sizeof_percpu_zstd_dctx true 0))
    as Hblk by (subst st3; simpl; by rewrite lookup_insert_eq).
  assert (percpu_dctx st3 = a) as Hpd3 by (by subst st3).
  destruct (init_slots_frame _ _ _ _ a Hinit Hold Hcl)
    as (Hh & _ & Hc & Hpd & _ & _).
  case_bool_decide.
  - apply bind_inv in H as (u' & st5 & Hfree & H). run_inv. subst st' r.
    destruct (free_slots_frame _ _ _ _ a Hfree Hc) as (Hh2 & _ & _ & Hpd2 & _).
    split; congruence.
  - run_inv. by subst r.
Qed.

End Create.

(** C1 at a failing input: two possible CPUs; the table is obtained, CPU 0's
    workspace is obtained from the second tier (__vmalloc), both tiers fail
    for CPU 1.  The rollback releases CPU 0's workspace, but never calls
    free_percpu: the table is still allocated, [percpu_dctx] still points at
    it, and its slot 0 still holds the released workspace pointer. *)
Theorem create_percpu_failure_keeps_table :
  (λ r, (r.1, percpu_dctx r.2, heap r.2 !! 4096, heap r.2 !! 4112,
         percpu_mem r.2 !! 4096, trace r.2)) <$>
    @zcomp_zstd_create_percpu (test_platform 2) (test_codec no_faults) NULL
      (boot [true; false; true; false; false])
  = Some (- ENOMEM, 4096,
          Some (mkblock Alloc_percpu 16 true 0),
          Some (mkblock Vmalloc 159744 true 1),
          Some [mk_dctx 4112 4112; mk_dctx NULL NULL],
          [EvAlloc Alloc_percpu 16 [GFP_KERNEL] 4096;
           EvAlloc Kzalloc 159744 direct_flags NULL;
           EvAlloc Vmalloc 159744 fallback_flags 4112;
           EvAlloc Kzalloc 159744 direct_flags NULL;
           EvAlloc Vmalloc 159744 fallback_flags NULL;
           EvFree Vfree 4112; EvFree Vfree NULL]).
Proof. vm_compute. reflexivity. Qed.

(** C2 at failing inputs.  (1) The compression workspace comes from the
    second tier (__vmalloc) and the compression engine cannot be constructed
    over it: [zstd_comp_init] releases the workspace with vfree and
    [zcomp_zstd_create] releases it again with kvfree.  (2) Two streams
    are created and destroyed, every allocation succeeds: the second
    creation overwrites [percpu_dctx], and the two workspaces of the first
    pool are never passed to a free function. *)
Theorem workspace_not_freed_exactly_once :
  (λ r, (r.1, heap r.2 !! 4112, trace r.2)) <$>
    @zcomp_zstd_create (test_platform 2) (test_codec cinit_refused)
      (boot [true; false; true])
  = Some (NULL,
          Some (mkblock Vmalloc 33792 true 2),
          [EvAlloc Kmalloc 16 [GFP_KERNEL] 4096;
           EvAlloc Kzalloc 33792 direct_flags NULL;
           EvAlloc Vmalloc 33792 fallback_flags 4112;
           EvFree Vfree 4112; EvFree Kvfree 4112]) ∧
  (λ r, (heap r.2 !! 37920, heap r.2 !! 197664,
         drop 10 (trace r.2))) <$>
    @two_streams (test_platform 2) (test_codec no_faults) (boot [])
  = Some (Some (mkblock Kzalloc 159744 true 0),
          Some (mkblock Kzalloc 159744 true 0),
          [EvFree Kvfree 4112; EvFree Vfree 391232; EvFree Vfree 550976;
           EvFree Free_percpu 391216; EvFree Kfree 4096;
           EvFree Kvfree 357424; EvFree Kfree 357408]).
Proof. split; vm_compute; reflexivity. Qed.


(** ** Destruction *)

Section Destroy.
Context {P : Platform} {C : Codec}.

Lemma free_slots_keeps cpus st u st' :
  free_slots cpus st = Some (u, st') →
  ctx_mem st' = ctx_mem st ∧ percpu_mem st' = percpu_mem st ∧
  percpu_dctx st' = percpu_dctx st.
Proof.
  revert st. induction cpus as [|cpu cpus IH]; simpl; intros st H.
  - run_inv. by subst.
  - unfold vfree in H. run_inv. subst.
    match goal with H : free_slots _ _ = _ |- _ => apply IH in H as (? & ? & ?) end.
    done.
Qed.

Lemma destroy_without_table private st c :
  (private ≠ NULL → ctx_mem st !! private = Some c) →
  percpu_dctx st = NULL →
  ∃ st',
    zcomp_zstd_destroy private st = Some (tt, st') ∧
    percpu_dctx st' = NULL ∧ percpu_mem st' = percpu_mem st ∧
    ctx_mem st' = ctx_mem st ∧
    trace st' = trace st ++ instance_frees private c.
Proof.
  intros Hc Hpd. unfold zcomp_zstd_destroy, instance_frees.
  unfold mbind at 1 3, M_bind at 1 3.
  case_bool_decide as Hp.
  - unfold mbind, M_bind, load_ctx, kvfree, kfree, release, get_percpu_dctx.
    rewrite (Hc Hp). simpl. rewrite Hpd. simpl.
    eexists. split; [reflexivity|]. simpl. by rewrite <- app_assoc.
  - unfold mbind, M_bind, mret, M_ret, kfree, release, get_percpu_dctx.
    simpl. rewrite Hpd. simpl.
    eexists. split; [reflexivity|]. done.
Qed.

Lemma destroy_clears_table private st u st1 :
  zcomp_zstd_destroy private st = Some (u, st1) →
  percpu_dctx st1 = NULL ∧ ctx_mem st1 = ctx_mem st.
Proof.
  unfold zcomp_zstd_destroy, kfree, kvfree, free_percpu. intros H.
  apply bind_inv in H as (u1 & s1 & H1 & H).
  apply bind_inv in H as (pd & s2 & Hg & H).
  apply get_percpu_dctx_inv in Hg as [-> ->].
  apply bind_inv in H as (u2 & s3 & H2 & H).
  apply release_inv in H. subst st1. simpl.
  assert (ctx_mem s1 = ctx_mem st) as Hs1.
  { clear -H1. case_bool_decide; run_inv; by subst. }
  case_bool_decide as Hpd.
  - apply bind_inv in H2 as (u3 & s4 & Hf & H2).
    apply free_slots_keeps in Hf as (Hcm & _ & _).
    run_inv. subst. simpl. split; congruence.
  - run_inv. subst. split; [|done].
    destruct (decide (percpu_dctx s1 = NULL)); tauto.
Qed.

(** C7.  Destroy is idempotent on the pool table.  When [percpu_dctx] is
    already NULL (no pool was ever created, or it has been torn down),
    destroy makes no call on the pool: its only calls are kvfree of the
    instance's workspace and kfree of the instance, and the per-CPU memory
    and the NULL reference are as before.  After any destroy [percpu_dctx]
    is NULL, so a second destroy again makes no call on the pool. *)
Theorem destroy_idempotent_on_pool private st c :
  (private ≠ NULL → ctx_mem st !! private = Some c) →
  (percpu_dctx st = NULL →
   ∃ st',
     zcomp_zstd_destroy private st = Some (tt, st') ∧
     percpu_dctx st' = NULL ∧ percpu_mem st' = percpu_mem st ∧
     trace st' = trace st ++ instance_frees private c) ∧
  (∀ st1,
     zcomp_zstd_destroy private st = Some (tt, st1) →
     percpu_dctx st1 = NULL ∧
     ∃ st2,
       zcomp_zstd_destroy private st1 = Some (tt, st2) ∧
       percpu_dctx st2 = NULL ∧ percpu_mem st2 = percpu_mem st1 ∧
       trace st2 = trace st1 ++ instance_frees private c).
Proof.
  intros Hc. split.
  - intros Hpd.
    destruct (destroy_without_table private st c Hc Hpd)
      as (st' & ? & ? & ? & ? & ?). eauto.
  - intros st1 H1. apply destroy_clears_table in H1 as [Hpd Hcm].
    split; [done|].
    assert (private ≠ NULL → ctx_mem st1 !! private = Some c) as Hc1
      by (rewrite Hcm; exact Hc).
    destruct (destroy_without_table private st1 c Hc1 Hpd)
      as (st2 & ? & ? & ? & ? & ?). eauto.
Qed.

(** A creation that fails before the pool step leaves [percpu_dctx] as it
    was: NULL, if no pool was created before. *)
Lemma create_before_pool_keeps_reference st st' r ctx :
  zstd_comp_init ctx st = Some (r, st') → percpu_dctx st' = percpu_dctx st.
Proof.
  intros H. apply zstd_comp_init_inv in H
    as (w & st1 & c0 & h & E & _ & _ & _ & Hpd & _).
  rewrite Hpd. clear Hpd.
  unfold alloc_mem, kzalloc, __vmalloc in E. run_inv.
  repeat match goal with
  | H : attempt _ _ _ _ _ = Some _ |- _ => apply attempt_inv in H as [? ?]
  end.
  case_bool_decide; run_inv.
  - match goal with
    | H : attempt _ _ _ _ _ = Some _ |- _ => apply attempt_inv in H as [? ?]
    end. by subst.
  - by subst.
Qed.

End Destroy.

Lemma destroy_idempotent_on_pool_witness :
  (percpu_dctx (demo_state no_faults) = NULL →
   ∃ st',
     @zcomp_zstd_destroy (test_platform 2) 4096 (demo_state no_faults)
       = Some (tt, st') ∧
     percpu_dctx st' = NULL ∧
     percpu_mem st' = percpu_mem (demo_state no_faults) ∧
     trace st' = trace (demo_state no_faults)
                 ++ instance_frees 4096 (mk_ctx 4112 4112)) ∧
  (∀ st1,
     @zcomp_zstd_destroy (test_platform 2) 4096 (demo_state no_faults)
       = Some (tt, st1) →
     percpu_dctx st1 = NULL ∧
     ∃ st2,
       @zcomp_zstd_destroy (test_platform 2) 4096 st1 = Some (tt, st2) ∧
       percpu_dctx st2 = NULL ∧ percpu_mem st2 = percpu_mem st1 ∧
       trace st2 = trace st1 ++ instance_frees 4096 (mk_ctx 4112 4112)).
Proof.
  apply (@destroy_idempotent_on_pool (test_platform 2)
           4096 (demo_state no_faults) (mk_ctx 4112 4112)).
  intros _. vm_compute. reflexivity.
Defined.

(** ** Workspace sizes *)

Section Sizes.
Context {P : Platform} {C : Codec}.

Lemma sized_app size evs1 evs2 :
  sized size evs1 → sized size evs2 → sized size (evs1 ++ evs2).
Proof.
  unfold sized, wksp_sizes. rewrite omap_app. apply Forall_app_2.
Qed.

Lemma emits_refl size st : emits size st st.
Proof. exists []. split; [by rewrite app_nil_r | constructor]. Qed.

Lemma emits_trans size st1 st2 st3 :
  emits size st1 st2 → emits size st2 st3 → emits size st1 st3.
Proof.
  intros (e1 & H1 & S1) (e2 & H2 & S2). exists (e1 ++ e2).
  split; [by rewrite H2, H1, app_assoc | by apply sized_app].
Qed.

Lemma emits_same_trace size st st' : trace st' = trace st → emits size st st'.
Proof. intros H. exists []. split; [by rewrite app_nil_r | constructor]. Qed.

Lemma emits_other size st st' e :
  wksp_size_of e = None → trace st' = trace st ++ [e] → emits size st st'.
Proof.
  intros He H. exists [e]. split; [done|].
  unfold sized, wksp_sizes. simpl. rewrite He. constructor.
Qed.

Lemma emits_free size st st' fn p :
  trace st' = trace st ++ [EvFree fn p] → emits size st st'.
Proof. by apply emits_other. Qed.

Lemma alloc_mem_emits size st w st' :
  alloc_mem size st = Some (w, st') → emits size st st'.
Proof.
  unfold alloc_mem, kzalloc, __vmalloc. intros H.
  apply bind_inv in H as (k & st1 & H1 & H).
  apply attempt_inv in H1 as [_ ->].
  case_bool_decide.
  - apply attempt_inv in H as [_ ->]. simpl.
    eexists [_; _]. split; [by rewrite <- app_assoc|].
    repeat constructor.
  - apply ret_inv in H as [_ ->]. simpl.
    eexists [_]. split; [done|]. repeat constructor.
Qed.

Lemma zstd_comp_init_emits ctx st r st' :
  zstd_comp_init ctx st = Some (r, st') → emits cwksp_size st st'.
Proof.
  intros H. apply zstd_comp_init_inv in H
    as (w & st1 & c0 & h & E & _ & _ & _ & _ & _ & _ & _ & Hcase).
  apply alloc_mem_emits in E. eapply emits_trans; [exact E|].
  destruct Hcase as [(_ & _ & _ & _ & Ht)|(_ & _ & [(_ & _ & _ & Ht)|(_ & _ & _ & Ht)])].
  - by apply emits_same_trace.
  - by apply emits_same_trace.
  - by eapply emits_free.
Qed.

Lemma zstd_decomp_init_emits base cpu st r st' :
  zstd_decomp_init base cpu st = Some (r, st') → emits dwksp_size st st'.
Proof.
  intros H. apply zstd_decomp_init_inv in H
    as (w & st1 & area & s0 & h & E & _ & _ & _ & _ & _ & _ & _ & _ & Hcase).
  apply alloc_mem_emits in E. eapply emits_trans; [exact E|].
  destruct Hcase as [(_ & _ & _ & _ & Ht)|(_ & _ & [(_ & _ & _ & Ht)|(_ & _ & _ & Ht)])].
  - by apply emits_same_trace.
  - by apply emits_same_trace.
  - by eapply emits_free.
Qed.

Lemma init_slots_emits cpus st r st' :
  init_slots cpus st = Some (r, st') → emits dwksp_size st st'.
Proof.
  revert st. induction cpus as [|cpu cpus IH]; simpl; intros st H.
  - run_inv. subst. apply emits_refl.
  - apply bind_inv in H as (base & st1 & Hg & H).
    apply get_percpu_dctx_inv in Hg as [-> ->].
    apply bind_inv in H as (ret & st2 & Hd & H).
    apply zstd_decomp_init_emits in Hd.
    case_bool_decide.
    + apply ret_inv in H as [_ ->]. done.
    + eapply emits_trans; [exact Hd | by apply IH].
Qed.

Lemma free_slots_emits size cpus st u st' :
  free_slots cpus st = Some (u, st') → emits size st st'.
Proof.
  revert st. induction cpus as [|cpu cpus IH]; simpl; intros st H.
  - run_inv. subst. apply emits_refl.
  - unfold vfree in H.
    apply bind_inv in H as (base & st1 & Hg & H).
    apply get_percpu_dctx_inv in Hg as [-> ->].
    apply bind_inv in H as (s & st2 & Hl & H).
    apply load_slot_inv in Hl as [_ ->].
    apply bind_inv in H as (u' & st3 & Hr & H).
    apply release_inv in Hr.
    eapply emits_trans; [|by apply IH].
    eapply emits_free. by subst st3.
Qed.

Lemma zcomp_zstd_create_percpu_emits ctx st r st' :
  zcomp_zstd_create_percpu ctx st = Some (r, st') → emits dwksp_size st st'.
Proof.
  unfold zcomp_zstd_create_percpu. intros H.
  apply bind_inv in H as (p & st2 & Hap & H).
  apply alloc_percpu_inv in Hap as (st1 & Hat & Hcase).
  apply attempt_inv in Hat as [_ Hst1].
  apply bind_inv in H as (u & st3 & Hset & H).
  apply set_percpu_dctx_inv in Hset.
  assert (emits dwksp_size st st3) as H03.
  { eapply (emits_other _ _ _ (EvAlloc Alloc_percpu _ _ _)); [done|].
    destruct Hcase as [[_ ->]|[_ ->]]; subst; done. }
  eapply emits_trans; [exact H03|].
  case_bool_decide.
  - apply ret_inv in H as [_ ->]. apply emits_refl.
  - apply bind_inv in H as (ret & st4 & Hinit & H).
    apply init_slots_emits in Hinit.
    eapply emits_trans; [exact Hinit|].
    case_bool_decide.
    + apply bind_inv in H as (u' & st5 & Hfree & H).
      apply ret_inv in H as [_ ->]. by eapply free_slots_emits.
    + apply ret_inv in H as [_ ->]. apply emits_refl.
Qed.

(** The trace of a creation is a run of workspace allocations of the
    compression size followed by a run of workspace allocations of the
    decompression size. *)
Lemma create_emits st p st' :
  zcomp_zstd_create st = Some (p, st') →
  ∃ evs_c evs_d,
    trace st' = trace st ++ evs_c ++ evs_d ∧
    sized cwksp_size evs_c ∧ sized dwksp_size evs_d.
Proof.
  intros H.
  assert (∃ stm, emits cwksp_size st stm ∧ emits dwksp_size stm st')
    as (stm & (ec & Hc & Sc) & (ed & Hd & Sd)).
  { unfold zcomp_zstd_create in H.
    apply bind_inv in H as (ctx & st1 & Hk & H).
    apply kmalloc_zstd_ctx_inv in Hk as (st0 & Hat & Hcase).
    apply attempt_inv in Hat as [_ Hst0].
    assert (emits cwksp_size st st1) as H01.
    { eapply (emits_other _ _ _ (EvAlloc Kmalloc _ _ _)); [done|].
      destruct Hcase as [[_ ->]|[_ ->]]; subst; done. }
    case_bool_decide.
    - apply ret_inv in H as [_ ->]. exists st1. split; [done|apply emits_refl].
    - apply bind_inv in H as (ret & st2 & Hci & H).
      apply zstd_comp_init_emits in Hci.
      case_bool_decide.
      + apply create_failed_inv in H as (c & _ & _ & _ & _ & _ & _ & Ht).
        exists st2. split; [by eapply emits_trans|by eapply emits_free].
      + apply bind_inv in H as (ret' & st3 & Hcp & H).
        apply zcomp_zstd_create_percpu_emits in Hcp.
        exists st2. split; [by eapply emits_trans|].
        eapply emits_trans; [exact Hcp|].
        case_bool_decide.
        * apply create_failed_inv in H as (c & _ & _ & _ & _ & _ & _ & Ht).
          by eapply emits_free.
        * apply ret_inv in H as [_ ->]. apply emits_refl. }
  exists ec, ed. split; [by rewrite Hd, Hc, app_assoc|]. done.
Qed.

(** [alloc_mem] always starts with the kzalloc attempt, of the size
    requested. *)
Lemma alloc_mem_first size st w st' :
  alloc_mem size st = Some (w, st') →
  ∃ k evs,
    trace st' = trace st ++ EvAlloc Kzalloc size direct_flags k :: evs ∧
    sized size evs.
Proof.
  unfold alloc_mem, kzalloc, __vmalloc. intros H.
  apply bind_inv in H as (k & st1 & H1 & H).
  apply attempt_inv in H1 as [_ ->].
  case_bool_decide.
  - apply attempt_inv in H as [_ ->]. simpl.
    eexists _, [_]. split; [by rewrite <- app_assoc|].
    repeat constructor.
  - apply ret_inv in H as [_ ->]. simpl.
    eexists _, []. split; [done|]. constructor.
Qed.

Lemma sized_snoc_free size evs f p :
  sized size evs → sized size (evs ++ [EvFree f p]).
Proof. intros H. apply sized_app; [done|]. constructor. Qed.

End Sizes.

(** C9, as stated, fails: in one creation the compression workspace and the
    per-CPU decompression workspaces are sized by two different codec
    functions, and their sizes differ. *)
Lemma workspaces_not_all_same_size :
  wksp_sizes (trace (demo_state no_faults)) = [33792; 159744; 159744] ∧
  ¬ (∀ x y, x ∈ wksp_sizes (trace (demo_state no_faults)) →
            y ∈ wksp_sizes (trace (demo_state no_faults)) → x = y).
Proof.
  split; [vm_compute; reflexivity|].
  intros H. specialize (H 33792 159744).
  assert (33792 = 159744) as Habs; [|discriminate].
  apply H; vm_compute; [left | right; left].
Qed.

(** ** What [alloc_mem] leaves alone *)

Section AllocKeeps.
Context {P : Platform} {C : Codec}.

Lemma alloc_mem_keeps size st w st' :
  alloc_mem size st = Some (w, st') →
  ctx_mem st' = ctx_mem st ∧ percpu_mem st' = percpu_mem st ∧
  percpu_dctx st' = percpu_dctx st.
Proof.
  unfold alloc_mem, kzalloc, __vmalloc. intros H.
  apply bind_inv in H as (k & st1 & H1 & H).
  apply attempt_inv in H1 as [_ ->].
  case_bool_decide.
  - apply attempt_inv in H as [_ ->]. done.
  - apply ret_inv in H as [_ ->]. done.
Qed.

End AllocKeeps.

(** ** Page operations: decompression errors, and what is left alone *)

Section PageOps.
Context {P : Platform} {C : Codec}.

Lemma decompress_run cpu src src_len dst st area s r out :
  percpu_mem st !! percpu_dctx st = Some area →
  area !! cpu = Some s →
  ZSTD_decompressDCtx (dctx s) PAGE_SIZE src src_len = (r, out) →
  zcomp_zstd_decompress cpu src src_len dst st =
    if bool_decide (ZSTD_isError r ≠ 0) then
      Some (- EINVAL, overwrite out dst,
            mk_kstate (heap st) (ctx_mem st) (percpu_mem st) (percpu_dctx st)
              (brk st) (plan st)
              (klog st ++ [DecompressError (ZSTD_getErrorCode r)]) (trace st))
    else Some (0, overwrite out dst, st).
Proof.
  intros Ha Hs Hz. unfold zcomp_zstd_decompress.
  erewrite bind_run by reflexivity.
  erewrite bind_run
    by (unfold load_slot; simpl; rewrite Ha; simpl; rewrite Hs; reflexivity).
  rewrite Hz. by case_bool_decide.
Qed.

(** X1.  Decompress, on a CPU whose slot exists: it returns 0 exactly when
    the codec reports no error, whatever length the codec produced; on a
    codec error it returns -EINVAL and logs the codec's diagnostic code.  In
    both cases the caller's buffer holds whatever the codec wrote. *)
Theorem decompress_error_reporting cpu src src_len dst st area s r out :
  percpu_mem st !! percpu_dctx st = Some area →
  area !! cpu = Some s →
  ZSTD_decompressDCtx (dctx s) PAGE_SIZE src src_len = (r, out) →
  ∃ ret st',
    zcomp_zstd_decompress cpu src src_len dst st
      = Some (ret, overwrite out dst, st') ∧
    (ret = 0 ↔ ZSTD_isError r = 0) ∧
    (ZSTD_isError r = 0 → klog st' = klog st) ∧
    (ZSTD_isError r ≠ 0 →
       ret = - EINVAL ∧
       klog st' = klog st ++ [DecompressError (ZSTD_getErrorCode r)]).
Proof.
  intros Ha Hs Hz. rewrite (decompress_run _ _ _ _ _ _ _ _ _ Ha Hs Hz).
  case_bool_decide as Herr.
  - eexists _, _. split; [reflexivity|]. simpl. split_and!; try done.
  - assert (ZSTD_isError r = 0)
      by (destruct (decide (ZSTD_isError r = 0)); tauto).
    eexists _, _. split; [reflexivity|]. split_and!; done.
Qed.

(** X2.  Compress and decompress allocate nothing, release nothing and
    leave the instance, the table and [percpu_dctx] as they were: between
    the states before and after, only the log can differ. *)
Theorem page_operations_keep_memory :
  (∀ src dst dst_len ctx st r st',
     zcomp_zstd_compress src dst dst_len ctx st = Some (r, st') →
     same_memory st st') ∧
  (∀ cpu src src_len dst st r st',
     zcomp_zstd_decompress cpu src src_len dst st = Some (r, st') →
     same_memory st st').
Proof.
  split.
  - intros src dst dst_len ctx st r st' H.
    destruct (ctx_mem st !! ctx) as [c|] eqn:Hc;
      [|by rewrite compress_faults in H].
    destruct (ZSTD_compressCCtx (cctx c) (2 * PAGE_SIZE) src PAGE_SIZE zstd_params)
      as [len out] eqn:Hz.
    rewrite (compress_run _ _ _ _ _ _ _ _ Hc Hz) in H.
    case_bool_decide; injection H as _ <-; by repeat split.
  - intros cpu src src_len dst st r st' H.
    unfold zcomp_zstd_decompress in H.
    apply bind_inv in H as (base & st1 & Hg & H).
    apply get_percpu_dctx_inv in Hg as [-> ->].
    apply bind_inv in H as (s & st2 & Hl & H).
    apply load_slot_inv in Hl as [_ ->].
    destruct (ZSTD_decompressDCtx _ _ _ _) as [ret out].
    case_bool_decide.
    + unfold pr_err in H. run_inv. subst.
      match goal with H : Some _ = Some _ |- _ => injection H as _ <- end.
      by repeat split.
    + run_inv. subst. by repeat split.
Qed.

End PageOps.

Lemma decompress_error_reporting_witness :
  ∃ ret st',
    @zcomp_zstd_decompress (test_platform 2) (test_codec no_faults) 0%nat
      two_pages 0 stale_page (demo_state no_faults)
      = Some (ret, overwrite [] stale_page, st') ∧
    (ret = 0 ↔ is_error (ERROR ZSTD_error_corruption_detected) = 0) ∧
    (is_error (ERROR ZSTD_error_corruption_detected) = 0 →
       klog st' = klog (demo_state no_faults)) ∧
    (is_error (ERROR ZSTD_error_corruption_detected) ≠ 0 →
       ret = - EINVAL ∧
       klog st' = klog (demo_state no_faults)
                  ++ [DecompressError
                        (error_code (ERROR ZSTD_error_corruption_detected))]).
Proof.
  apply (@decompress_error_reporting (test_platform 2) (test_codec no_faults)
           0%nat two_pages 0 stale_page (demo_state no_faults)
           [mk_dctx 37920 37920; mk_dctx 197664 197664] (mk_dctx 37920 37920)
           (ERROR ZSTD_error_corruption_detected) []);
    [vm_compute; reflexivity | reflexivity | vm_compute; reflexivity].
Defined.

(** ** What creation leaves alone, and what it abandons *)

Section CreateFrames.
Context {P : Platform} {C : Codec}.

Lemma zstd_comp_init_others ctx st r st' q :
  zstd_comp_init ctx st = Some (r, st') → q ≠ ctx →
  ctx_mem st' !! q = ctx_mem st !! q.
Proof.
  intros H Hq. apply zstd_comp_init_inv in H
    as (w & st1 & c0 & h & E & _ & Hcm & _).
  apply alloc_mem_keeps in E as (Hcm1 & _).
  by rewrite Hcm, lookup_insert_ne, Hcm1.
Qed.

Lemma zstd_decomp_init_others cpu st r st' t :
  zstd_decomp_init (percpu_dctx st) cpu st = Some (r, st') →
  t ≠ percpu_dctx st →
  percpu_mem st' !! t = percpu_mem st !! t ∧ percpu_dctx st' = percpu_dctx st.
Proof.
  intros H Ht. apply zstd_decomp_init_inv in H
    as (w & st1 & area & s0 & h & E & _ & _ & Hpm & Hpd & _).
  apply alloc_mem_keeps in E as (_ & Hpm1 & Hpd1).
  rewrite Hpm, Hpd, Hpd1, lookup_insert_ne, Hpm1 by done. done.
Qed.

Lemma init_slots_others cpus st r st' t :
  init_slots cpus st = Some (r, st') →
  t ≠ percpu_dctx st →
  percpu_mem st' !! t = percpu_mem st !! t ∧ percpu_dctx st' = percpu_dctx st.
Proof.
  revert st. induction cpus as [|cpu cpus IH]; simpl; intros st H Ht.
  - apply ret_inv in H as [_ ->]. done.
  - apply bind_inv in H as (base & st1 & Hg & H).
    apply get_percpu_dctx_inv in Hg as [-> ->].
    apply bind_inv in H as (ret & st2 & Hd & H).
    apply (zstd_decomp_init_others _ _ _ _ t) in Hd as [Hpm Hpd]; [|done].
    case_bool_decide.
    + apply ret_inv in H as [_ ->]. done.
    + apply IH in H as [Hpm' Hpd']; [|by rewrite Hpd]. split; congruence.
Qed.

(** What [zcomp_zstd_create_percpu] does to the table reference and to the
    per-CPU memory of other tables. *)
Lemma create_percpu_reference ctx st r st' :
  zcomp_zstd_create_percpu ctx st = Some (r, st') →
  percpu_dctx st' = (if next_ok st then Z.pos (brk st) else NULL) ∧
  ∀ t, t ≠ Z.pos (brk st) → percpu_mem st' !! t = percpu_mem st !! t.
Proof.
  unfold zcomp_zstd_create_percpu. intros H.
  apply bind_inv in H as (p & st2 & Hap & H).
  apply alloc_percpu_inv in Hap as (st1 & Hat & Hcase).
  apply attempt_inv in Hat as [Hp Hst1].
  apply bind_inv in H as (u & st3 & Hset & H).
  apply set_percpu_dctx_inv in Hset.
  assert (percpu_dctx st3 = p) as Hpd3 by (by subst st3).
  assert (∀ t, t ≠ Z.pos (brk st) → percpu_mem st3 !! t = percpu_mem st !! t)
    as Hpm3.
  { intros t Ht. subst st3. simpl.
    destruct Hcase as [[_ ->]|[Hnn ->]]; subst st1; simpl; [done|].
    destruct (next_ok st); [|done]. subst p. by rewrite lookup_insert_ne. }
  case_bool_decide as Hnull.
  - apply ret_inv in H as [_ ->]. split; [|done].
    rewrite Hpd3. destruct (next_ok st); [by subst p|done].
  - apply bind_inv in H as (ret & st4 & Hinit & H).
    assert (p = Z.pos (brk st)) as Hpv by (destruct (next_ok st); by subst p).
    assert (percpu_dctx st' = percpu_dctx st4 ∧
            percpu_mem st' = percpu_mem st4) as [Hd4 Hm4].
    { case_bool_decide.
      - apply bind_inv in H as (u' & st5 & Hfree & H).
        apply ret_inv in H as [_ ->].
        apply free_slots_keeps in Hfree as (_ & ? & ?). done.
      - apply ret_inv in H as [_ ->]. done. }
    split.
    + rewrite Hd4.
      destruct (init_slots_others _ _ _ _ NULL Hinit) as [_ ->];
        [by rewrite Hpd3|].
      rewrite Hpd3. destruct (next_ok st); [done|by subst p].
    + intros t Ht. rewrite Hm4.
      destruct (init_slots_others _ _ _ _ t Hinit) as [-> _];
        [rewrite Hpd3; congruence|]. by apply Hpm3.
Qed.

(** X3.  Creation, whether it succeeds or fails, leaves every object handed
    out before the call as it was: the bookkeeping of earlier blocks (none is
    released), the records of earlier instances and the slots of an earlier
    table. *)
Theorem create_leaves_earlier_objects st p st' a :
  zcomp_zstd_create st = Some (p, st') →
  old a st →
  heap st' !! a = heap st !! a ∧
  ctx_mem st' !! a = ctx_mem st !! a ∧
  percpu_mem st' !! a = percpu_mem st !! a.
Proof.
  unfold zcomp_zstd_create. intros H Ha.
  assert (a ≠ Z.pos (brk st)) as Hne by (unfold old in Ha; lia).
  apply bind_inv in H as (ctx & st1 & Hk & H).
  apply kmalloc_zstd_ctx_inv in Hk as (st0 & Hat & Hcase).
  destruct (attempt_frame _ _ _ _ _ _ _ a Hat Ha)
    as (Hh0 & Ha0 & Hp0 & Hcm0 & Hpm0 & _).
  apply attempt_inv in Hat as [Hctx _].
  assert (heap st1 !! a = heap st !! a ∧ old a st1 ∧
          ctx_mem st1 !! a = ctx_mem st !! a ∧
          percpu_mem st1 = percpu_mem st ∧ brk st1 = brk st0)
    as (Hh1 & Ha1 & Hcm1 & Hpm1 & Hb1).
  { destruct Hcase as [[_ ->]|[_ ->]]; simpl; split_and!; try done;
      try congruence.
    rewrite lookup_insert_ne by done. congruence. }
  case_bool_decide as Hnull.
  { apply ret_inv in H as [_ ->]. split_and!; congruence. }
  apply bind_inv in H as (ret & st2 & Hci & H).
  destruct (zstd_comp_init_frame _ _ _ _ a Hci Ha1)
    as (Hh2 & Ha2 & Hpm2 & _ & _ & c & Hc & Hcw & _).
  assert (a ≠ ctx) as Hp0' by congruence.
  pose proof (zstd_comp_init_others _ _ _ _ a Hci Hp0') as Hcm2.
  assert (∀ st3 q, create_failed ctx st3 = Some (q, st')
                   → ctx_mem st3 !! ctx = Some c
                   → heap st' !! a = heap st3 !! a ∧
                     ctx_mem st' = ctx_mem st3 ∧
                     percpu_mem st' = percpu_mem st3) as Hfail.
  { intros st3 q Hf Hc3.
    apply create_failed_inv in Hf
      as (c' & Hc' & _ & Hcm & Hheap & _ & Hpm & _).
    simplify_eq. split_and!; try done.
    rewrite Hheap. case_bool_decide; [done|]. by rewrite lookup_alter_ne. }
  case_bool_decide.
  { destruct (Hfail _ _ H Hc) as (-> & -> & ->). split_and!; congruence. }
  apply bind_inv in H as (ret' & st3 & Hcp & H).
  destruct (zcomp_zstd_create_percpu_frame _ _ _ _ a Hcp Ha2)
    as (Hh3 & _ & Hcm3 & _).
  destruct (create_percpu_reference _ _ _ _ Hcp) as [_ Hpm3].
  assert (a ≠ Z.pos (brk st2)) as Hne2 by (unfold old in Ha2; lia).
  specialize (Hpm3 a Hne2).
  case_bool_decide.
  - rewrite <- Hcm3 in Hc.
    destruct (Hfail _ _ H Hc) as (-> & -> & ->). split_and!; congruence.
  - apply ret_inv in H as [_ ->]. split_and!; congruence.
Qed.

(** X4.  [zcomp_zstd_create_percpu] overwrites [percpu_dctx] with the result
    of its own alloc_percpu (NULL when that fails), whatever it held.  A
    table it referred to before is not released, keeps its slots, and is no
    longer referenced. *)
Theorem create_percpu_abandons_previous_table ctx st r st' :
  zcomp_zstd_create_percpu ctx st = Some (r, st') →
  old (percpu_dctx st) st →
  percpu_dctx st' = (if next_ok st then Z.pos (brk st) else NULL) ∧
  percpu_dctx st' ≠ percpu_dctx st ∧
  heap st' !! percpu_dctx st = heap st !! percpu_dctx st ∧
  percpu_mem st' !! percpu_dctx st = percpu_mem st !! percpu_dctx st.
Proof.
  intros H Hold.
  destruct (create_percpu_reference _ _ _ _ H) as [Hpd Hpm].
  destruct (zcomp_zstd_create_percpu_frame _ _ _ _ _ H Hold) as (Hh & _).
  unfold old in Hold. split_and!; try done.
  - rewrite Hpd. destruct (next_ok st); unfold NULL; lia.
  - apply Hpm. lia.
Qed.

End CreateFrames.

(** ** Tearing a pool down *)

Section Teardown.
Context {P : Platform} {C : Codec}.

Lemma free_slots_run area suffix : ∀ i st,
  percpu_mem st !! percpu_dctx st = Some area →
  drop i area = suffix →
  free_slots (seq i (length suffix)) st =
    Some (tt, mk_kstate (release_all Vfree (map dwksp suffix) (heap st))
                (ctx_mem st) (percpu_mem st) (percpu_dctx st) (brk st)
                (plan st) (klog st)
                (trace st ++ map (λ s, EvFree Vfree (dwksp s)) suffix)).
Proof.
  induction suffix as [|s suffix IH]; intros i st Harea Hdrop; simpl.
  - destruct st. simpl. by rewrite app_nil_r.
  - assert (area !! i = Some s) as Hs.
    { rewrite <- (Nat.add_0_r i), <- lookup_drop, Hdrop. done. }
    assert (drop (S i) area = suffix) as Hdrop'.
    { rewrite <- Nat.add_1_r, <- drop_drop, Hdrop. done. }
    erewrite bind_run by reflexivity.
    erewrite bind_run
      by (unfold load_slot; rewrite Harea; simpl; rewrite Hs; reflexivity).
    erewrite bind_run by reflexivity.
    rewrite IH by done. simpl. by rewrite <- app_assoc.
Qed.

(** Destroy on a state with a table, in closed form. *)
Lemma destroy_run private st c area :
  (private ≠ NULL → ctx_mem st !! private = Some c) →
  percpu_dctx st ≠ NULL →
  percpu_mem st !! percpu_dctx st = Some area →
  length area = nr_cpu_ids →
  let own := if bool_decide (private ≠ NULL) then [cwksp c] else [] in
  zcomp_zstd_destroy private st =
    Some (tt, mk_kstate
                (bump_at Kfree private
                   (bump_at Free_percpu (percpu_dctx st)
                      (release_all Vfree (map dwksp area)
                         (release_all Kvfree own (heap st)))))
                (ctx_mem st) (percpu_mem st) NULL (brk st) (plan st) (klog st)
                (trace st ++ map (EvFree Kvfree) own
                          ++ pool_frees (percpu_dctx st) area
                          ++ [EvFree Kfree private])).
Proof.
  intros Hc Hpd Harea Hlen own. unfold zcomp_zstd_destroy.
  set (st1 := mk_kstate (release_all Kvfree own (heap st)) (ctx_mem st)
                (percpu_mem st) (percpu_dctx st) (brk st) (plan st) (klog st)
                (trace st ++ map (EvFree Kvfree) own)).
  erewrite (bind_run _ _ st tt st1); cycle 1.
  { unfold own, st1. case_bool_decide as Hp.
    - erewrite bind_run by (unfold load_slot, load_ctx; rewrite (Hc Hp); reflexivity).
      reflexivity.
    - destruct st. simpl. by rewrite app_nil_r. }
  erewrite bind_run by reflexivity.
  assert (percpu_dctx st1 = percpu_dctx st) as Hpd1 by done.
  erewrite (bind_run _ _ st1 tt); cycle 1.
  { rewrite Hpd1, bool_decide_true by done.
    unfold possible_cpus. rewrite <- Hlen.
    erewrite bind_run by (by eapply (free_slots_run area area 0)).
    erewrite bind_run by reflexivity.
    erewrite bind_run by reflexivity.
    reflexivity. }
  unfold kfree, release, pool_frees, bump_at. simpl.
  rewrite <- ?app_assoc. reflexivity.
Qed.

(** X6.  Destroy on a state whose table has a slot per possible CPU runs to
    completion and makes exactly these calls, in this order: kvfree of the
    instance's workspace (when the instance is not NULL), vfree of every
    slot's workspace in CPU order, free_percpu of the table, kfree of the
    instance.  [percpu_dctx] is NULL afterwards. *)
Theorem destroy_teardown_order private st c area :
  (private ≠ NULL → ctx_mem st !! private = Some c) →
  percpu_dctx st ≠ NULL →
  percpu_mem st !! percpu_dctx st = Some area →
  length area = nr_cpu_ids →
  ∃ st',
    zcomp_zstd_destroy private st = Some (tt, st') ∧
    percpu_dctx st' = NULL ∧
    trace st' =
      trace st
      ++ (if bool_decide (private ≠ NULL) then [EvFree Kvfree (cwksp c)] else [])
      ++ map (λ s, EvFree Vfree (dwksp s)) area
      ++ [EvFree Free_percpu (percpu_dctx st); EvFree Kfree private].
Proof.
  intros Hc Hpd Harea Hlen.
  rewrite (destroy_run private st c area Hc Hpd Harea Hlen).
  eexists. split; [reflexivity|]. simpl. split; [done|].
  unfold pool_frees. rewrite <- ?app_assoc. simpl.
  by case_bool_decide.
Qed.

End Teardown.

(** ** The pool while it is built *)

Section Pool.
Context {P : Platform} {C : Codec}.

Lemma allocs_only_refl st : allocs_only st st.
Proof. exists []. split; [by rewrite app_nil_r | constructor]. Qed.

Lemma allocs_only_trans st1 st2 st3 :
  allocs_only st1 st2 → allocs_only st2 st3 → allocs_only st1 st3.
Proof.
  intros (e1 & H1 & S1) (e2 & H2 & S2). exists (e1 ++ e2).
  split; [by rewrite H2, H1, app_assoc | by apply Forall_app_2].
Qed.

Lemma allocs_only_same st st' : trace st' = trace st → allocs_only st st'.
Proof. intros H. exists []. split; [by rewrite app_nil_r | constructor]. Qed.

Lemma attempt_fresh fn size flags z st p st' :
  attempt fn size flags z st = Some (p, st') →
  allocs_only st st' ∧
  ((p = NULL ∧ heap st' = heap st ∧ brk st' = brk st) ∨
   (p = Z.pos (brk st) ∧
    heap st' = <[p := mkblock fn size z 0]> (heap st) ∧
    Z.pos (brk st') = Z.pos (brk st) + Z.pos (Z.to_pos size))) ∧
  ctx_mem st' = ctx_mem st.
Proof.
  intros H. apply attempt_inv in H as [-> ->]. split_and!; [| |done].
  - eexists [_]. split; [done|]. by repeat constructor.
  - simpl. destruct (next_ok st); [right|left]; split_and!; done.
Qed.

(** A workspace [alloc_mem] hands out is a fresh zero-filled block at or
    above the break; earlier blocks are untouched. *)
Lemma alloc_mem_fresh size st p st' :
  alloc_mem size st = Some (p, st') →
  allocs_only st st' ∧
  Z.pos (brk st) ≤ Z.pos (brk st') ∧
  (∀ a, a < Z.pos (brk st) → heap st' !! a = heap st !! a) ∧
  (p = NULL → heap st' = heap st) ∧
  (p ≠ NULL →
     Z.pos (brk st) ≤ p < Z.pos (brk st') ∧
     ∃ fn, (fn = Kzalloc ∨ fn = Vmalloc) ∧
           heap st' !! p = Some (mkblock fn size true 0)).
Proof.
  unfold alloc_mem, kzalloc, __vmalloc. intros H.
  apply bind_inv in H as (k & st1 & H1 & H).
  apply attempt_fresh in H1 as (Ha1 & Hc1 & _).
  case_bool_decide as Hk.
  - apply attempt_fresh in H as (Ha2 & Hc2 & _).
    destruct Hc1 as [(_ & Hh1 & Hb1)|(Hk' & _)];
      [|subst k; unfold NULL in Hk; lia].
    rewrite Hh1, Hb1 in Hc2.
    split; [by eapply allocs_only_trans|].
    destruct Hc2 as [(-> & -> & ->)|(-> & -> & Hb)].
    + split_and!; try done; lia.
    + pose proof (Pos2Z.is_pos (Z.to_pos size)).
      split_and!; try done; try lia.
      * intros a Ha. by rewrite lookup_insert_ne by lia.
      * intros _. split; [lia|]. exists Vmalloc. split; [by right|].
        by rewrite lookup_insert_eq.
  - apply ret_inv in H as [-> ->].
    destruct Hc1 as [(Hk' & _)|(Hkv & Hh & Hb)]; [done|].
    pose proof (Pos2Z.is_pos (Z.to_pos size)).
    split_and!; try done; try lia.
    + intros a Ha. rewrite Hh. by rewrite lookup_insert_ne by lia.
    + intros _. split; [lia|]. exists Kzalloc. split; [by left|].
      rewrite Hh, Hkv. by rewrite lookup_insert_eq.
Qed.

Lemma pool_partial_ext lo d1 d2 st :
  (∀ c, c ∈ d1 ↔ c ∈ d2) → pool_partial lo d1 st → pool_partial lo d2 st.
Proof.
  intros Hd (area & Ha & Hl & Hs & Hdist).
  exists area. split_and!; try done.
  intros cpu s Hcs. destruct (Hs cpu s Hcs) as [H1 H2]. split.
  - intros Hin. apply H1, Hd, Hin.
  - intros Hin. apply H2. intros Hin'. apply Hin, Hd, Hin'.
Qed.

Lemma wksp_block_keep size n p st st' :
  wksp_block size n p st →
  Z.pos (brk st) ≤ Z.pos (brk st') →
  (∀ a, a < Z.pos (brk st) → heap st' !! a = heap st !! a) →
  wksp_block size n p st'.
Proof.
  intros [[H0 Hlt] (fn & Hfn & Hb)] Hbrk Hheap. split; [unfold old; lia|].
  exists fn. split; [done|]. by rewrite Hheap.
Qed.

Lemma slot_built_keep s st st' :
  slot_built s st →
  Z.pos (brk st) ≤ Z.pos (brk st') →
  (∀ a, a < Z.pos (brk st) → heap st' !! a = heap st !! a) →
  slot_built s st'.
Proof.
  intros (Hw & Hd & Hn) Hbrk Hheap. split_and!; try done.
  by eapply wksp_block_keep.
Qed.

(** One successful [zstd_decomp_init] adds [cpu] to the built slots. *)
Lemma zstd_decomp_init_step lo done cpu st st' :
  zstd_decomp_init (percpu_dctx st) cpu st = Some (0, st') →
  pool_partial lo done st →
  lo ≤ Z.pos (brk st) →
  pool_partial lo (cpu :: done) st' ∧
  Z.pos (brk st) ≤ Z.pos (brk st') ∧
  allocs_only st st' ∧
  (∀ a, a < Z.pos (brk st) → heap st' !! a = heap st !! a) ∧
  ctx_mem st' = ctx_mem st ∧ percpu_dctx st' = percpu_dctx st.
Proof.
  intros H (area & Harea & Hlen & Hslots & Hdist) Hlo.
  apply zstd_decomp_init_inv in H
    as (w & st1 & area' & s0 & h & E & Harea' & Hs0 & Hpm & Hpd & Hcm & _ & Hbrk & _ & Hcase).
  pose proof (alloc_mem_keeps _ _ _ _ E) as (Hcm1 & Hpm1 & Hpd1).
  apply alloc_mem_fresh in E as (Hal & Hb1 & Hh1 & _ & Hfresh).
  destruct Hcase as [(_ & [=] & _)|(Hw & Hh & [(Hhn & _ & Hheap & Htr)|(_ & [=] & _)])].
  rewrite Hpm1, Harea in Harea'. injection Harea' as <-.
  destruct (Hfresh Hw) as [Hwr (fn & Hfn & Hwb)].
  assert (wksp_block dwksp_size 0 w st') as Hwblock.
  { split; [unfold old; rewrite Hbrk; lia|]. exists fn.
    split; [done|]. by rewrite Hheap. }
  assert (∀ s, slot_built s st → slot_built s st' ∧ dwksp s < w) as Hkeep.
  { intros s Hs. split.
    - eapply slot_built_keep; [done|rewrite Hbrk; lia|].
      intros a Ha. rewrite Hheap. by apply Hh1.
    - destruct Hs as ([[_ ?] _] & _). lia. }
  split_and!; try done; try congruence.
  - exists (<[cpu := mk_dctx w h]> area). split_and!.
    + by rewrite Hpm, Hpd, Hpd1, lookup_insert_eq.
    + by rewrite length_insert.
    + intros cpu' s' Hl.
      apply list_lookup_insert_Some in Hl as [(<- & <- & _)|(Hne & Hl)].
      * split; [|intros Hn; by destruct Hn; left].
        intros _. simpl. split; [|lia]. unfold slot_built. simpl.
        split_and!; done.
      * destruct (Hslots cpu' s' Hl) as [Hin Hout]. split.
        -- intros [?|Hd]%elem_of_cons; [done|].
           destruct (Hin Hd) as [Hs ?]. split; [|done]. by apply Hkeep.
        -- intros Hn. apply Hout. intros Hd. apply Hn. by right.
    + intros i j si sj Hij Hi Hj Hnn.
      apply list_lookup_insert_Some in Hi as [(<- & <- & _)|(Hnei & Hi)];
      apply list_lookup_insert_Some in Hj as [(<- & <- & _)|(Hnej & Hj)];
        simpl in *; try done.
      * destruct (Hslots j sj Hj) as [Hin Hout].
        destruct (decide (j ∈ done)) as [Hd|Hd].
        -- destruct (Hin Hd) as [Hs _]. apply Hkeep in Hs as [_ ?]. lia.
        -- rewrite (Hout Hd). done.
      * destruct (Hslots i si Hi) as [Hin Hout].
        destruct (decide (i ∈ done)) as [Hd|Hd].
        -- destruct (Hin Hd) as [Hs _]. apply Hkeep in Hs as [_ ?]. lia.
        -- rewrite (Hout Hd) in Hnn. done.
      * exact (Hdist i j si sj Hij Hi Hj Hnn).
  - eapply allocs_only_trans; [done|]. by apply allocs_only_same.
  - intros a Ha. rewrite Hheap. by apply Hh1.
Qed.

Lemma init_slots_built lo : ∀ cpus done st st',
  init_slots cpus st = Some (0, st') →
  pool_partial lo done st →
  lo ≤ Z.pos (brk st) →
  pool_partial lo (cpus ++ done) st' ∧
  Z.pos (brk st) ≤ Z.pos (brk st') ∧
  allocs_only st st' ∧
  (∀ a, a < Z.pos (brk st) → heap st' !! a = heap st !! a) ∧
  ctx_mem st' = ctx_mem st ∧ percpu_dctx st' = percpu_dctx st.
Proof.
  induction cpus as [|cpu cpus IH]; simpl; intros done st st' H Hp Hlo.
  - apply ret_inv in H as [_ ->]. split_and!; try done.
    apply allocs_only_refl.
  - apply bind_inv in H as (base & st1 & Hg & H).
    apply get_percpu_dctx_inv in Hg as [-> ->].
    apply bind_inv in H as (ret & st2 & Hd & H).
    case_bool_decide as Hret.
    { apply ret_inv in H as [<- _]. done. }
    assert (ret = 0) as -> by (destruct (decide (ret = 0)); tauto).
    destruct (zstd_decomp_init_step _ _ _ _ _ Hd Hp Hlo)
      as (Hp2 & Hb2 & Ha2 & Hh2 & Hc2 & Hd2).
    destruct (IH _ _ _ H Hp2) as (Hp3 & Hb3 & Ha3 & Hh3 & Hc3 & Hd3); [lia|].
    split_and!; try congruence; try lia.
    + eapply pool_partial_ext; [|exact Hp3].
      intros c. rewrite !elem_of_app, !elem_of_cons, elem_of_app. tauto.
    + by eapply allocs_only_trans.
    + intros a Ha. rewrite Hh3 by lia. by apply Hh2.
Qed.

Lemma zcomp_zstd_create_percpu_built ctx st st' :
  zcomp_zstd_create_percpu ctx st = Some (0, st') →
  percpu_dctx st' = Z.pos (brk st) ∧
  heap st' !! Z.pos (brk st) =
    Some (mkblock Alloc_percpu sizeof_percpu_zstd_dctx true 0) ∧
  (∃ area,
      percpu_mem st' !! Z.pos (brk st) = Some area ∧
      length area = nr_cpu_ids ∧
      (∀ cpu s, area !! cpu = Some s →
                slot_built s st' ∧ Z.pos (brk st) < dwksp s) ∧
      distinct_wksps area) ∧
  Z.pos (brk st) < Z.pos (brk st') ∧
  allocs_only st st' ∧
  (∀ a, a < Z.pos (brk st) → heap st' !! a = heap st !! a) ∧
  ctx_mem st' = ctx_mem st.
Proof.
  unfold zcomp_zstd_create_percpu. intros H.
  apply bind_inv in H as (p & st2 & Hap & H).
  apply alloc_percpu_inv in Hap as (st1 & Hat & Hcase).
  apply attempt_fresh in Hat as (Hal1 & Hf1 & Hcm1).
  apply bind_inv in H as (u & st3 & Hset & H).
  apply set_percpu_dctx_inv in Hset.
  case_bool_decide as Hp; [by apply ret_inv in H as [[=] _]|].
  destruct Hcase as [[? _]|[_ Hst2]]; [done|].
  destruct Hf1 as [(? & _)|(Hpv & Hh1 & Hb1)]; [done|].
  apply bind_inv in H as (ret & st4 & Hinit & H).
  case_bool_decide as Hret.
  { apply bind_inv in H as (u' & st5 & _ & H).
    apply ret_inv in H as [<- _]. done. }
  assert (ret = 0) as -> by (destruct (decide (ret = 0)); tauto).
  apply ret_inv in H as [_ ->].
  pose proof (Pos2Z.is_pos (Z.to_pos sizeof_percpu_zstd_dctx)) as Hpos.
  assert (pool_partial (Z.pos (brk st3)) [] st3) as Hp3.
  { exists (replicate nr_cpu_ids (mk_dctx NULL NULL)).
    subst st3 st2. simpl. split_and!.
    - by rewrite lookup_insert_eq.
    - by rewrite length_replicate.
    - intros cpu s [-> _]%lookup_replicate. split; [|done].
      intros Hin. by apply elem_of_nil in Hin.
    - intros i j si sj _ [-> _]%lookup_replicate _ Hnn. done. }
  destruct (init_slots_built _ _ _ _ _ Hinit Hp3)
    as ((area & Ha & Hl & Hs & Hd) & Hb4 & Hal4 & Hh4 & Hc4 & Hd4); [lia|].
  assert (brk st3 = brk st1) as Hb3 by (by subst st3 st2).
  assert (percpu_dctx st3 = p) as Hpd3 by (by subst st3).
  rewrite Hd4, Hpd3, Hpv in Ha.
  split_and!.
  - congruence.
  - rewrite Hh4 by (rewrite Hb3; lia). subst st3 st2. simpl.
    rewrite Hh1, Hpv. by rewrite lookup_insert_eq.
  - exists area. split; [exact Ha|]. split; [exact Hl|]. split; [|exact Hd].
    intros cpu s Hcs. destruct (Hs cpu s Hcs) as [Hin _].
    assert (cpu ∈ seq 0 nr_cpu_ids ++ []) as Hcpu.
    { rewrite app_nil_r. apply elem_of_seq.
      apply lookup_lt_Some in Hcs. lia. }
    destruct (Hin Hcpu) as [Hb Hlo]. split; [done|].
    rewrite Hb3 in Hlo. lia.
  - rewrite Hb3 in Hb4. lia.
  - eapply allocs_only_trans; [exact Hal1|].
    eapply allocs_only_trans; [|exact Hal4].
    apply allocs_only_same. by subst st3 st2.
  - intros a Ha'. rewrite Hh4 by (rewrite Hb3; lia). subst st3 st2. simpl.
    rewrite Hh1. by rewrite lookup_insert_ne by lia.
  - rewrite Hc4. subst st3 st2. simpl. done.
Qed.

Lemma zstd_comp_init_built ctx st st' :
  zstd_comp_init ctx st = Some (0, st') →
  ∃ w,
    ctx_mem st' = <[ctx := mk_ctx w (ZSTD_initCCtx w cwksp_size)]> (ctx_mem st) ∧
    ZSTD_initCCtx w cwksp_size ≠ NULL ∧
    Z.pos (brk st) ≤ w < Z.pos (brk st') ∧
    (∃ fn, (fn = Kzalloc ∨ fn = Vmalloc) ∧
           heap st' !! w = Some (mkblock fn cwksp_size true 0)) ∧
    allocs_only st st' ∧
    (∀ a, a < Z.pos (brk st) → heap st' !! a = heap st !! a).
Proof.
  intros H. apply zstd_comp_init_inv in H
    as (w & st1 & c0 & h & E & _ & Hcm & _ & _ & _ & Hbrk & _ & Hcase).
  pose proof (alloc_mem_keeps _ _ _ _ E) as (Hcm1 & _).
  apply alloc_mem_fresh in E as (Hal & Hb1 & Hh1 & _ & Hfresh).
  destruct Hcase as [(_ & [=] & _)|(Hw & Hh & [(Hhn & _ & Hheap & Htr)|(_ & [=] & _)])].
  destruct (Hfresh Hw) as [Hwr (fn & Hfn & Hwb)].
  exists w. subst h. split_and!; try done.
  - by rewrite Hcm, Hcm1.
  - lia.
  - rewrite Hbrk. lia.
  - exists fn. split; [done|]. by rewrite Hheap.
  - eapply allocs_only_trans; [done|]. by apply allocs_only_same.
  - intros a Ha. rewrite Hheap. by apply Hh1.
Qed.

(** What a successful creation establishes. *)
Lemma create_built st ctx st' :
  zcomp_zstd_create st = Some (ctx, st') → ctx ≠ NULL →
  ctx = Z.pos (brk st) ∧
  heap st' !! ctx = Some (mkblock Kmalloc sizeof_zstd_ctx false 0) ∧
  allocs_only st st' ∧
  (∀ a, a < Z.pos (brk st) → heap st' !! a = heap st !! a) ∧
  ∃ c area,
    ctx_mem st' !! ctx = Some c ∧
    ctx < cwksp c < percpu_dctx st' ∧
    wksp_block cwksp_size 0 (cwksp c) st' ∧
    cctx c = ZSTD_initCCtx (cwksp c) cwksp_size ∧ cctx c ≠ NULL ∧
    heap st' !! percpu_dctx st' =
      Some (mkblock Alloc_percpu sizeof_percpu_zstd_dctx true 0) ∧
    percpu_mem st' !! percpu_dctx st' = Some area ∧
    length area = nr_cpu_ids ∧
    (∀ cpu s, area !! cpu = Some s →
              slot_built s st' ∧ percpu_dctx st' < dwksp s) ∧
    distinct_wksps area.
Proof.
  unfold zcomp_zstd_create. intros H Hctx.
  apply bind_inv in H as (p & st1 & Hk & H).
  apply kmalloc_zstd_ctx_inv in Hk as (st0 & Hat & Hcase).
  apply attempt_fresh in Hat as (Hal0 & Hf0 & Hcm0).
  case_bool_decide as Hp; [by apply ret_inv in H as [-> _]|].
  destruct Hcase as [[? _]|[_ Hst1]]; [done|].
  destruct Hf0 as [(? & _)|(Hpv & Hh0 & Hb0)]; [done|].
  pose proof (Pos2Z.is_pos (Z.to_pos sizeof_zstd_ctx)) as Hpos.
  apply bind_inv in H as (ret & st2 & Hci & H).
  case_bool_decide as Hret.
  { apply create_failed_inv in H as (? & _ & -> & _). done. }
  assert (ret = 0) as -> by (destruct (decide (ret = 0)); tauto).
  apply bind_inv in H as (ret' & st3 & Hcp & H).
  case_bool_decide as Hret'.
  { apply create_failed_inv in H as (? & _ & -> & _). done. }
  assert (ret' = 0) as -> by (destruct (decide (ret' = 0)); tauto).
  apply ret_inv in H as [-> ->].
  assert (brk st1 = brk st0 ∧ heap st1 = heap st0 ∧ trace st1 = trace st0 ∧
          ctx_mem st1 = <[p := mk_ctx poison poison]> (ctx_mem st0))
    as (Hb1 & Hh1 & Ht1 & Hc1) by (by subst st1).
  apply zstd_comp_init_built in Hci
    as (w & Hcm2 & Hcc & Hwr & (fn & Hfn & Hwb) & Hal2 & Hh2).
  apply zcomp_zstd_create_percpu_built in Hcp
    as (Hpd3 & Ht3 & (area & Ha & Hl & Hs & Hd) & Hb3 & Hal3 & Hh3 & Hcm3).
  rewrite Hb1 in *.
  split_and!.
  - done.
  - rewrite Hh3, Hh2, Hh1, Hh0, Hpv by lia. by rewrite lookup_insert_eq.
  - eapply allocs_only_trans; [exact Hal0|].
    eapply allocs_only_trans; [by apply allocs_only_same|].
    by eapply allocs_only_trans.
  - intros a Ha'. rewrite Hh3, Hh2, Hh1, Hh0 by lia.
    by rewrite lookup_insert_ne by lia.
  - exists (mk_ctx w (ZSTD_initCCtx w cwksp_size)), area. simpl.
    rewrite Hpd3. split_and!; try done; try lia.
    + by rewrite Hcm3, Hcm2, lookup_insert_eq.
    + split; [unfold old; lia|]. exists fn. split; [done|].
      by rewrite Hh3 by lia.
Qed.

(** X5.  A creation that succeeds calls no free function: every call it
    makes on the allocator is an allocation, and every block handed out
    before the call is as it was. *)
Theorem create_success_calls_no_free st ctx st' :
  zcomp_zstd_create st = Some (ctx, st') → ctx ≠ NULL →
  ∃ evs,
    trace st' = trace st ++ evs ∧
    Forall (λ e, ∀ f p, e ≠ EvFree f p) evs.
Proof.
  intros H Hctx.
  destruct (create_built _ _ _ H Hctx) as (_ & _ & (evs & Ht & Hall) & _).
  exists evs. split; [done|].
  eapply Forall_impl; [exact Hall|].
  intros e He f' q. destruct e; [done|destruct He].
Qed.

(** X7.  Pool completeness.  After a successful creation the instance holds
    a live zero-filled compression workspace of the computed size with an
    engine built over it, and the table [percpu_dctx] refers to has exactly
    one slot per possible CPU, each with its own live zero-filled workspace
    of the decompression size and an engine built over it; no two slots
    share a workspace, and none shares it with the instance. *)
Theorem create_pool_complete st ctx st' :
  zcomp_zstd_create st = Some (ctx, st') → ctx ≠ NULL →
  pool_complete st' ∧
  ∃ c,
    ctx_mem st' !! ctx = Some c ∧
    wksp_block cwksp_size 0 (cwksp c) st' ∧
    cctx c = ZSTD_initCCtx (cwksp c) cwksp_size ∧ cctx c ≠ NULL ∧
    ∀ area cpu s,
      percpu_mem st' !! percpu_dctx st' = Some area → area !! cpu = Some s →
      dwksp s ≠ cwksp c.
Proof.
  intros H Hctx.
  destruct (create_built _ _ _ H Hctx)
    as (Hcv & _ & _ & _ & c & area & Hc & Hord & Hw & Hcc & Hcn & _ & Ha & Hl & Hs & Hd).
  pose proof (Pos2Z.is_pos (brk st)).
  split.
  - split; [unfold NULL; lia|]. exists area. split_and!; try done.
    intros cpu s Hcs. by destruct (Hs cpu s Hcs).
  - exists c. split_and!; try done.
    intros area' cpu s Ha' Hcs. rewrite Ha in Ha'. injection Ha' as <-.
    destruct (Hs cpu s Hcs) as [_ ?]. lia.
Qed.

End Pool.

(** ** Workspace sizes, per workspace *)

Section WorkspaceSizes.
Context {P : Platform} {C : Codec}.

Lemma released_by_size f b : b_size (released_by f b) = b_size b.
Proof. unfold released_by. by destruct (releases f (b_fn b)). Qed.

(** C9, as the code has it.  The parameters are the constants
    ([ZRAM_ZSTD_LEVEL], [PAGE_SIZE]), so from every state:
    [zstd_comp_init] asks [alloc_mem] for
    [ZSTD_CCtxWorkspaceBound(zstd_params().cParams)] bytes, and the block it
    leaves in [ctx->cwksp] has that size; [zstd_decomp_init] asks for
    [ZSTD_DCtxWorkspaceBound()] bytes, and the block it leaves in the slot's
    [dwksp] has that size; in every creation the workspace allocations are a
    run of the first size followed by a run of the second, and after a
    successful one the instance's compression workspace has the first size
    and every possible CPU's decompression workspace has the second. *)
Theorem workspace_sizes_fixed :
  (∀ ctx st r st',
     zstd_comp_init ctx st = Some (r, st') →
     ∃ k evs c,
       trace st' =
         trace st
         ++ EvAlloc Kzalloc
              (ZSTD_CCtxWorkspaceBound (cParams (ZSTD_getParams 1 PAGE_SIZE 0)))
              direct_flags k :: evs ∧
       Forall (λ size, size = ZSTD_CCtxWorkspaceBound
                                (cParams (ZSTD_getParams 1 PAGE_SIZE 0)))
              (wksp_sizes evs) ∧
       ctx_mem st' !! ctx = Some c ∧
       (cwksp c ≠ NULL →
        b_size <$> heap st' !! cwksp c =
          Some (ZSTD_CCtxWorkspaceBound
                  (cParams (ZSTD_getParams 1 PAGE_SIZE 0))))) ∧
  (∀ base cpu st r st',
     zstd_decomp_init base cpu st = Some (r, st') →
     ∃ k evs area s,
       trace st' =
         trace st
         ++ EvAlloc Kzalloc ZSTD_DCtxWorkspaceBound direct_flags k :: evs ∧
       Forall (λ size, size = ZSTD_DCtxWorkspaceBound) (wksp_sizes evs) ∧
       percpu_mem st' !! base = Some area ∧ area !! cpu = Some s ∧
       (dwksp s ≠ NULL →
        b_size <$> heap st' !! dwksp s = Some ZSTD_DCtxWorkspaceBound)) ∧
  (∀ st p st',
     zcomp_zstd_create st = Some (p, st') →
     (∃ evs_c evs_d,
        trace st' = trace st ++ evs_c ++ evs_d ∧
        Forall (λ size, size = ZSTD_CCtxWorkspaceBound
                                 (cParams (ZSTD_getParams 1 PAGE_SIZE 0)))
               (wksp_sizes evs_c) ∧
        Forall (λ size, size = ZSTD_DCtxWorkspaceBound) (wksp_sizes evs_d)) ∧
     (p ≠ NULL →
      ∃ c area,
        ctx_mem st' !! p = Some c ∧
        b_size <$> heap st' !! cwksp c =
          Some (ZSTD_CCtxWorkspaceBound
                  (cParams (ZSTD_getParams 1 PAGE_SIZE 0))) ∧
        percpu_mem st' !! percpu_dctx st' = Some area ∧
        length area = nr_cpu_ids ∧
        ∀ cpu s, area !! cpu = Some s →
          b_size <$> heap st' !! dwksp s = Some ZSTD_DCtxWorkspaceBound)).
Proof.
  split_and!.
  - intros ctx st r st' H.
    apply zstd_comp_init_inv in H
      as (w & st1 & c0 & h & E & _ & Hcm & _ & _ & _ & _ & _ & Hcase).
    destruct (alloc_mem_first _ _ _ _ E) as (k & evs & Ht & Hs).
    apply alloc_mem_fresh in E as (_ & _ & _ & _ & Hfresh).
    assert (w ≠ NULL → b_size <$> heap st' !! w =
              Some (ZSTD_CCtxWorkspaceBound (cParams zstd_params))) as Hsize.
    { intros Hw. destruct (Hfresh Hw) as [_ (fn & _ & Hb)].
      destruct Hcase as [(_ & _ & _ & -> & _)|(_ & _ & [(_ & _ & -> & _)|(_ & _ & -> & _)])];
        rewrite ?lookup_alter_eq, Hb; simpl; by rewrite ?released_by_size. }
    destruct Hcase as [(_ & _ & _ & _ & Htr)|(_ & _ & [(_ & _ & _ & Htr)|(_ & _ & _ & Htr)])].
    + exists k, evs, (mk_ctx w h). rewrite Htr, Hcm, lookup_insert_eq. done.
    + exists k, evs, (mk_ctx w h). rewrite Htr, Hcm, lookup_insert_eq. done.
    + exists k, (evs ++ [EvFree Vfree w]), (mk_ctx w h).
      rewrite Htr, Ht, Hcm, lookup_insert_eq, <- app_assoc.
      split_and!; try done. by apply sized_snoc_free.
  - intros base cpu st r st' H.
    apply zstd_decomp_init_inv in H
      as (w & st1 & area & s0 & h & E & Ha & Hs0 & Hpm & _ & _ & _ & _ & _ & Hcase).
    destruct (alloc_mem_first _ _ _ _ E) as (k & evs & Ht & Hs).
    apply alloc_mem_fresh in E as (_ & _ & _ & _ & Hfresh).
    assert (w ≠ NULL → b_size <$> heap st' !! w = Some ZSTD_DCtxWorkspaceBound)
      as Hsize.
    { intros Hw. destruct (Hfresh Hw) as [_ (fn & _ & Hb)].
      destruct Hcase as [(_ & _ & _ & -> & _)|(_ & _ & [(_ & _ & -> & _)|(_ & _ & -> & _)])];
        rewrite ?lookup_alter_eq, Hb; simpl; by rewrite ?released_by_size. }
    assert (<[cpu := mk_dctx w h]> area !! cpu = Some (mk_dctx w h)) as Hslot
      by (apply list_lookup_insert_eq; by eapply lookup_lt_Some).
    destruct Hcase as [(_ & _ & _ & _ & Htr)|(_ & _ & [(_ & _ & _ & Htr)|(_ & _ & _ & Htr)])].
    + exists k, evs, (<[cpu := mk_dctx w h]> area), (mk_dctx w h).
      rewrite Htr, Hpm, lookup_insert_eq. done.
    + exists k, evs, (<[cpu := mk_dctx w h]> area), (mk_dctx w h).
      rewrite Htr, Hpm, lookup_insert_eq. done.
    + exists k, (evs ++ [EvFree Vfree w]), (<[cpu := mk_dctx w h]> area),
        (mk_dctx w h).
      rewrite Htr, Ht, Hpm, lookup_insert_eq, <- app_assoc.
      split_and!; try done. by apply sized_snoc_free.
  - intros st p st' H. split; [exact (create_emits _ _ _ H)|].
    intros Hp.
    destruct (create_built _ _ _ H Hp)
      as (_ & _ & _ & _ & c & area & Hc & _ & Hw & _ & _ & _ & Ha & Hl & Hs & _).
    exists c, area. split_and!; try done.
    + destruct Hw as [_ (fn & _ & ->)]. done.
    + intros cpu s Hcs.
      destruct (Hs cpu s Hcs) as [([_ (fn & _ & ->)] & _) _]. done.
Qed.

End WorkspaceSizes.

Lemma workspace_sizes_fixed_witness :
  (∃ evs_c evs_d,
     trace (demo_state no_faults) = trace (boot []) ++ evs_c ++ evs_d ∧
     Forall (λ size, size = 33792) (wksp_sizes evs_c) ∧
     Forall (λ size, size = 159744) (wksp_sizes evs_d)) ∧
  (4096 ≠ NULL →
   ∃ c area,
     ctx_mem (demo_state no_faults) !! 4096 = Some c ∧
     b_size <$> heap (demo_state no_faults) !! cwksp c = Some 33792 ∧
     percpu_mem (demo_state no_faults) !! percpu_dctx (demo_state no_faults)
       = Some area ∧
     length area = 2%nat ∧
     ∀ cpu s, area !! cpu = Some s →
       b_size <$> heap (demo_state no_faults) !! dwksp s = Some 159744).
Proof.
  apply (proj2 (proj2 (@workspace_sizes_fixed (test_platform 2)
                         (test_codec no_faults)))
           (boot []) 4096 (demo_state no_faults)).
  vm_compute. reflexivity.
Defined.

(** ** Releases, counted *)

Section Balance.
Context {P : Platform} {C : Codec}.

Lemma bump_at_ne f q p h : q ≠ p → bump_at f q h !! p = h !! p.
Proof.
  intros Hne. unfold bump_at. case_bool_decide; [done|].
  by rewrite lookup_alter_ne.
Qed.

Lemma bump_at_eq f p h :
  p ≠ NULL → bump_at f p h !! p = released_by f <$> h !! p.
Proof.
  intros Hp. unfold bump_at. rewrite bool_decide_false by done.
  apply lookup_alter_eq.
Qed.

Lemma release_all_other f area : ∀ p h,
  (∀ i s, area !! i = Some s → dwksp s ≠ p) →
  release_all f (map dwksp area) h !! p = h !! p.
Proof.
  induction area as [|s0 area IH]; intros p h Hall; simpl; [done|].
  rewrite IH by (intros i s Hs; apply (Hall (S i) s Hs)).
  apply bump_at_ne. apply (Hall 0%nat s0). done.
Qed.

Lemma distinct_wksps_tail s area :
  distinct_wksps (s :: area) → distinct_wksps area.
Proof.
  intros Hd i j si sj Hij Hi Hj. apply (Hd (S i) (S j)); [lia|done|done].
Qed.

(** Calling a free function on every slot's workspace calls it once on
    each (non-NULL) one. *)
Lemma release_area_once f area : ∀ i s h,
  distinct_wksps area → area !! i = Some s → dwksp s ≠ NULL →
  release_all f (map dwksp area) h !! dwksp s
    = released_by f <$> h !! dwksp s.
Proof.
  induction area as [|s0 area IH]; intros i s h Hd Hs Hnn; [done|].
  simpl. destruct i as [|i]; simpl in Hs.
  - injection Hs as ->.
    rewrite release_all_other; [by apply bump_at_eq|].
    intros j sj Hj Heq.
    apply (Hd (S j) 0%nat sj s); try done. by rewrite Heq.
  - rewrite (IH i s) by (try done; by eapply distinct_wksps_tail).
    rewrite bump_at_ne; [done|].
    intros Heq. apply (Hd (S i) 0%nat s s0); done.
Qed.

(** What one call of vfree does to a workspace block. *)
Lemma wksp_vfreed_once size k p st (h : gmap Z block) :
  wksp_vfreed size k p st →
  h !! p = released_by Vfree <$> heap st !! p →
  h !! p = Some (mkblock Vmalloc size true (S k)) ∨
  h !! p = Some (mkblock Kzalloc size true 0).
Proof. intros [_ [Hb|Hb]] ->; rewrite Hb; simpl; auto. Qed.

Lemma wksp_block_vfreed size p st :
  wksp_block size 0 p st → wksp_vfreed size 0 p st.
Proof.
  intros [Ho (fn & [->| ->] & Hb)]; split; auto.
Qed.

(** X8.  Create, then destroy, on the success path.  Destroy runs to
    completion; the record (kfree), the compression workspace (kvfree) and
    the table (free_percpu), unreleased until then, are each released
    exactly once, and [percpu_dctx] is NULL again.  Each CPU's workspace is
    passed to vfree: it is released exactly once if [alloc_mem] obtained it
    from __vmalloc, and not released at all if [alloc_mem] obtained it from
    kzalloc.  The blocks handed out before the creation are as they
    were. *)
Theorem create_destroy_accounting st ctx st1 :
  zcomp_zstd_create st = Some (ctx, st1) → ctx ≠ NULL →
  ∃ st2 c area,
    zcomp_zstd_destroy ctx st1 = Some (tt, st2) ∧
    ctx_mem st1 !! ctx = Some c ∧
    percpu_mem st1 !! percpu_dctx st1 = Some area ∧
    length area = nr_cpu_ids ∧
    percpu_dctx st2 = NULL ∧
    (frees st1 ctx = Some 0%nat ∧ frees st2 ctx = Some 1%nat) ∧
    (frees st1 (cwksp c) = Some 0%nat ∧
     frees st2 (cwksp c) = Some 1%nat) ∧
    (frees st1 (percpu_dctx st1) = Some 0%nat ∧
     frees st2 (percpu_dctx st1) = Some 1%nat) ∧
    (∀ cpu s, area !! cpu = Some s →
       (heap st1 !! dwksp s = Some (mkblock Vmalloc dwksp_size true 0) ∧
        heap st2 !! dwksp s = Some (mkblock Vmalloc dwksp_size true 1)) ∨
       (heap st1 !! dwksp s = Some (mkblock Kzalloc dwksp_size true 0) ∧
        heap st2 !! dwksp s = Some (mkblock Kzalloc dwksp_size true 0))) ∧
    (∀ a, a < Z.pos (brk st) → heap st2 !! a = heap st !! a).
Proof.
  intros H Hctx.
  destruct (create_built _ _ _ H Hctx)
    as (Hcv & Hrec & _ & Hold & c & area & Hc & Hord & Hw & _ & _ & Ht & Ha & Hl & Hs & Hd).
  pose proof (Pos2Z.is_pos (brk st)) as Hpos.
  assert (percpu_dctx st1 ≠ NULL) as Htn by (unfold NULL; lia).
  assert (cwksp c ≠ NULL) as Hcn by (unfold NULL; lia).
  rewrite (destroy_run ctx st1 c area (λ _, Hc) Htn Ha Hl).
  rewrite bool_decide_true by done.
  eexists _, c, area. split; [reflexivity|].
  destruct Hw as [_ (fnc & Hfnc & Hwb)].
  assert (∀ i s, area !! i = Some s → dwksp s ≠ ctx) as Hnc
    by (intros i s Hi; destruct (Hs i s Hi) as [_ ?]; lia).
  assert (∀ i s, area !! i = Some s → dwksp s ≠ cwksp c) as Hnw
    by (intros i s Hi; destruct (Hs i s Hi) as [_ ?]; lia).
  assert (∀ i s, area !! i = Some s → dwksp s ≠ percpu_dctx st1) as Hnt
    by (intros i s Hi; destruct (Hs i s Hi) as [_ ?]; lia).
  unfold frees. simpl. split_and!; try done.
  - by rewrite Hrec.
  - rewrite bump_at_eq by done.
    rewrite bump_at_ne, release_all_other, bump_at_ne by (done || lia).
    by rewrite Hrec.
  - by rewrite Hwb.
  - rewrite !bump_at_ne, release_all_other, bump_at_eq by (done || lia).
    rewrite Hwb. by destruct Hfnc as [-> | ->].
  - by rewrite Ht.
  - rewrite bump_at_ne, bump_at_eq, release_all_other, bump_at_ne
      by (done || lia).
    by rewrite Ht.
  - intros cpu s Hcs.
    destruct (Hs cpu s Hcs) as [([_ (fn & Hfn & Hb)] & _) Hlt].
    assert (dwksp s ≠ NULL) by (unfold NULL; lia).
    rewrite !bump_at_ne by lia.
    rewrite (release_area_once Vfree area cpu s) by done.
    rewrite bump_at_ne by lia. rewrite Hb.
    destruct Hfn as [-> | ->]; [right|left]; done.
  - intros a Hlt.
    rewrite !bump_at_ne, release_all_other, bump_at_ne; [by apply Hold|lia| |lia|lia].
    intros i s Hi. destruct (Hs i s Hi) as [_ ?]. lia.
Qed.

End Balance.

(** ** Round trip *)

Section RoundTrip.
Context {P : Platform} {C : Codec}.

Lemma overwrite_whole (out buf : list byte) :
  length buf = length out → overwrite out buf = out.
Proof.
  intros H. unfold overwrite. rewrite drop_ge by lia. apply app_nil_r.
Qed.

(** C3.  Under the codec's contract for pages, on an instance that creation
    has returned, for every one-page input [x]: compress succeeds (returns
    zero), and decompressing the buffer it filled, with the length it
    reported, on any possible CPU, into a one-page buffer, succeeds
    (returns zero) and the buffer then holds exactly [x].  Neither call
    changes the state. *)
Theorem compress_decompress_roundtrip st0 ctx st x dst dst_len cpu page :
  page_contract →
  zcomp_zstd_create st0 = Some (ctx, st) → ctx ≠ NULL →
  Z.of_nat (length x) = PAGE_SIZE →
  (cpu < nr_cpu_ids)%nat →
  length page = length x →
  ∃ dst' len,
    zcomp_zstd_compress x dst dst_len ctx st = Some (0, dst', len, st) ∧
    zcomp_zstd_decompress cpu dst' len page st = Some (0, x, st).
Proof.
  intros HC Hcreate Hctx Hx Hcpu Hpage.
  destruct (create_built _ _ _ Hcreate Hctx)
    as (_ & _ & _ & _ & c & area & Hc & _ & _ & Hcc & Hcn & _ & Ha & Hl & Hs & _).
  assert (is_Some (area !! cpu)) as [s Hcs]
    by (apply lookup_lt_is_Some_2; lia).
  destruct (Hs cpu s Hcs) as [(_ & Hd & Hdn) _].
  destruct (ZSTD_compressCCtx (cctx c) (2 * PAGE_SIZE) x PAGE_SIZE zstd_params)
    as [len out] eqn:Hz.
  rewrite Hcc in Hcn, Hz. rewrite Hd in Hdn.
  unfold cwksp_size, dwksp_size, zstd_params in *.
  pose proof (page_compresses HC (cwksp c) ZRAM_ZSTD_LEVEL x Hcn Hx) as Hok.
  simpl in Hok. rewrite Hz in Hok. simpl in Hok.
  destruct (page_decompresses HC (cwksp c) (dwksp s) ZRAM_ZSTD_LEVEL x len out
              (drop (length out) dst) Hcn Hdn Hx Hz Hok) as (r & Hdz & Hr).
  rewrite <- Hcc in Hz. rewrite <- Hd in Hdz.
  rewrite (compress_run _ _ _ _ _ _ _ _ Hc Hz).
  rewrite bool_decide_false by (by intros []).
  exists (overwrite out dst), len. split; [done|].
  rewrite (decompress_run _ _ _ _ _ _ _ _ _ Ha Hcs Hdz).
  rewrite bool_decide_false by (by intros []).
  by rewrite overwrite_whole.
Qed.

End RoundTrip.

Lemma compress_decompress_roundtrip_witness :
  ∃ dst' len,
    @zcomp_zstd_compress (test_platform 2) (test_codec no_faults)
      zero_page two_pages 0 4096 (demo_state no_faults)
      = Some (0, dst', len, demo_state no_faults) ∧
    @zcomp_zstd_decompress (test_platform 2) (test_codec no_faults)
      1%nat dst' len stale_page (demo_state no_faults)
      = Some (0, zero_page, demo_state no_faults).
Proof.
  apply (@compress_decompress_roundtrip (test_platform 2) (test_codec no_faults)
           (boot []) 4096 (demo_state no_faults) zero_page two_pages 0 1%nat
           stale_page test_page_contract);
    [vm_compute; reflexivity | discriminate | reflexivity | simpl; lia
    | reflexivity].
Defined.

(** The same run, evaluated: the zero page compresses to 4097 bytes and
    comes back from CPU 1's slot. *)
Example roundtrip_zero_page :
  (λ r, (r.1.1.1, r.1.2)) <$>
    @zcomp_zstd_compress (test_platform 2) (test_codec no_faults)
      zero_page two_pages 0 4096 (demo_state no_faults) = Some (0, 4097) ∧
  fst <$>
    @zcomp_zstd_decompress (test_platform 2) (test_codec no_faults) 1%nat
      (overwrite (x00%byte :: zero_page) two_pages) 4097 stale_page
      (demo_state no_faults) = Some (0, zero_page).
Proof. split; vm_compute; reflexivity. Qed.

(** ** Rolling a failed pool back *)

Section Rollback.
Context {P : Platform} {C : Codec}.

(** The [zstd_decomp_init] that fails, on a CPU whose slot is still zero. *)
Lemma zstd_decomp_init_fail_step lo done cpu st r st' :
  zstd_decomp_init (percpu_dctx st) cpu st = Some (r, st') →
  r ≠ 0 →
  pool_partial lo done st →
  cpu ∉ done →
  lo ≤ Z.pos (brk st) →
  pool_rolled lo r 0 1 st' ∧ percpu_dctx st' = percpu_dctx st.
Proof.
  intros H Hr (area & Harea & Hlen & Hslots & Hdist) Hcpu Hlo.
  apply zstd_decomp_init_inv in H
    as (w & st1 & area' & s0 & h & E & Harea' & Hs0 & Hpm & Hpd & _ & _ & Hbrk & _ & Hcase).
  pose proof (alloc_mem_keeps _ _ _ _ E) as (_ & Hpm1 & Hpd1).
  apply alloc_mem_fresh in E as (_ & Hb1 & Hh1 & Hnull & Hfresh).
  rewrite Hpm1, Harea in Harea'. injection Harea' as <-.
  assert (s0 = mk_dctx NULL NULL) as -> by (by apply (Hslots cpu s0 Hs0)).
  split; [|congruence].
  exists (<[cpu := mk_dctx w h]> area).
  split; [by rewrite Hpm, Hpd, Hpd1, lookup_insert_eq|].
  split; [by rewrite length_insert|].
  assert (∀ a, a < Z.pos (brk st) → heap st' !! a = heap st !! a) as Hheap.
  { intros a Ha.
    destruct Hcase as [(Hw & _ & _ & -> & _)|(Hw & _ & [(_ & _ & -> & _)|(_ & _ & -> & _)])].
    - by apply Hh1.
    - by apply Hh1.
    - destruct (Hfresh Hw) as [? _].
      rewrite lookup_alter_ne by lia. by apply Hh1. }
  assert (∀ s, slot_built s st →
               dctx s ≠ NULL ∧ wksp_vfreed dwksp_size 0 (dwksp s) st' ∧
               dwksp s < Z.pos (brk st)) as Hkeep.
  { intros s (Hw & _ & Hn). split_and!; [done| |by destruct Hw as [[_ ?] _]].
    apply wksp_block_vfreed.
    eapply wksp_block_keep; [done|rewrite Hbrk; lia|done]. }
  assert (∀ cpu' s', <[cpu := mk_dctx w h]> area !! cpu' = Some s' →
                     dwksp s' ≠ NULL → lo ≤ dwksp s') as Hlob.
  { intros cpu' s' Hl Hnn.
    apply list_lookup_insert_Some in Hl as [(_ & <- & _)|(_ & Hl)].
    - simpl in *. destruct (Hfresh Hnn) as [? _]. lia.
    - destruct (Hslots cpu' s' Hl) as [Hin Hout].
      destruct (decide (cpu' ∈ done)) as [Hd|Hd].
      + by destruct (Hin Hd) as [_ ?].
      + rewrite (Hout Hd) in Hnn. done. }
  destruct Hcase as [(Hw & _ & Hh & _)|(Hw & Hhe & [(_ & ? & _)|(Hhn & -> & Hhp & _)])];
    [|done|].
  - (* no memory: the slot stays zero *)
    subst w h. simpl. split.
    + intros cpu' s' Hl. split; [|by apply (Hlob cpu' s')].
      apply list_lookup_insert_Some in Hl as [(_ & <- & _)|(_ & Hl)];
        [by left|].
      destruct (Hslots cpu' s' Hl) as [Hin Hout].
      destruct (decide (cpu' ∈ done)) as [Hd|Hd]; [|left; by apply Hout].
      right; left. destruct (Hin Hd) as [Hs _].
      destruct (Hkeep s' Hs) as (? & ? & _). done.
    + rewrite list_insert_id by done. done.
  - (* no engine: the slot keeps the workspace handed to vfree *)
    destruct (Hfresh Hw) as [Hwr (fn & Hfn & Hwb)]. split.
    + intros cpu' s' Hl. split; [|by apply (Hlob cpu' s')].
      apply list_lookup_insert_Some in Hl as [(_ & <- & _)|(_ & Hl)].
      * right; right. simpl.
        split_and!; try done; try (unfold dwksp_size; congruence).
        split; [unfold old; rewrite Hbrk; lia|].
        rewrite Hhp, lookup_alter_eq, Hwb.
        destruct Hfn as [-> | ->]; [right|left]; done.
      * destruct (Hslots cpu' s' Hl) as [Hin Hout].
        destruct (decide (cpu' ∈ done)) as [Hd|Hd]; [|left; by apply Hout].
        right; left. destruct (Hin Hd) as [Hs _].
        destruct (Hkeep s' Hs) as (? & ? & _). done.
    + intros i j si sj Hij Hi Hj Hnn.
      assert (∀ k sk, area !! k = Some sk → dwksp sk ≠ w) as Hlow.
      { intros k sk Hk. destruct (Hslots k sk Hk) as [Hin Hout].
        destruct (decide (k ∈ done)) as [Hd|Hd].
        - destruct (Hin Hd) as [Hs _]. destruct (Hkeep sk Hs) as (_ & _ & ?).
          lia.
        - rewrite (Hout Hd). simpl. congruence. }
      apply list_lookup_insert_Some in Hi as [(<- & <- & _)|(Hnei & Hi)];
      apply list_lookup_insert_Some in Hj as [(<- & <- & _)|(Hnej & Hj)];
        simpl in *; try done.
      * intros Heq. by apply (Hlow j sj Hj).
      * by apply (Hlow i si Hi).
      * exact (Hdist i j si sj Hij Hi Hj Hnn).
Qed.

Lemma init_slots_failed lo : ∀ cpus done st r st',
  init_slots cpus st = Some (r, st') →
  r ≠ 0 →
  NoDup cpus → (∀ c, c ∈ cpus → c ∉ done) →
  pool_partial lo done st →
  lo ≤ Z.pos (brk st) →
  pool_rolled lo r 0 1 st' ∧ percpu_dctx st' = percpu_dctx st.
Proof.
  induction cpus as [|cpu cpus IH]; simpl;
    intros done st r st' H Hr Hnd Hdis Hp Hlo.
  - apply ret_inv in H as [-> _]. done.
  - apply bind_inv in H as (base & st1 & Hg & H).
    apply get_percpu_dctx_inv in Hg as [-> ->].
    apply bind_inv in H as (ret & st2 & Hd & H).
    apply NoDup_cons in Hnd as [Hnotin Hnd].
    case_bool_decide as Hret.
    + apply ret_inv in H as [-> ->].
      eapply zstd_decomp_init_fail_step; try done.
      apply Hdis. by left.
    + assert (ret = 0) as -> by (destruct (decide (ret = 0)); tauto).
      destruct (zstd_decomp_init_step _ _ _ _ _ Hd Hp Hlo)
        as (Hp2 & Hb2 & _ & _ & _ & Hd2).
      destruct (IH (cpu :: done) _ _ _ H Hr Hnd) as [Hroll Hpd]; try done.
      * intros c Hc [->|Hin]%elem_of_cons; [done|].
        by apply (Hdis c); [right|].
      * lia.
      * split; [done|congruence].
Qed.

(** The rollback loop calls vfree on each slot's workspace once more. *)
Lemma free_slots_rolls lo r st u st' :
  free_slots possible_cpus st = Some (u, st') →
  pool_rolled lo r 0 1 st →
  pool_rolled lo r 1 2 st' ∧ percpu_dctx st' = percpu_dctx st.
Proof.
  intros H (area & Harea & Hlen & Hslots & Hdist).
  unfold possible_cpus in H. rewrite <- Hlen in H.
  rewrite (free_slots_run area area 0 st Harea eq_refl) in H.
  injection H as _ <-. simpl. split; [|done].
  exists area. simpl. split_and!; try done.
  assert (∀ n cpu s, area !! cpu = Some s →
            wksp_vfreed dwksp_size n (dwksp s) st →
            wksp_vfreed dwksp_size (S n) (dwksp s)
              (mk_kstate (release_all Vfree (map dwksp area) (heap st))
                 (ctx_mem st) (percpu_mem st) (percpu_dctx st) (brk st)
                 (plan st) (klog st)
                 (trace st ++ map (λ s, EvFree Vfree (dwksp s)) area)))
    as Hbump.
  { intros n cpu s Hcs Hv. split; [by destruct Hv|]. simpl.
    eapply wksp_vfreed_once; [exact Hv|].
    apply (release_area_once Vfree area cpu s); try done.
    destruct Hv as [Ho _]. unfold old, NULL in *. lia. }
  intros cpu s Hcs.
  destruct (Hslots cpu s Hcs) as [Hk Hlo]. split; [|done].
  destruct Hk as [->|[(Hn & Hw)|(Hr & Hn & Hw)]].
  - by left.
  - right; left. split; [done|]. by eapply Hbump.
  - destruct Hw as [Hi Hw]. right; right. split_and!; try done.
    by eapply Hbump.
Qed.

Lemma create_percpu_rolled ctx st r st' :
  zcomp_zstd_create_percpu ctx st = Some (r, st') →
  r ≠ 0 →
  next_ok st = true →
  pool_rolled (Z.pos (brk st)) r 1 2 st'.
Proof.
  unfold zcomp_zstd_create_percpu. intros H Hr Hok.
  apply bind_inv in H as (p & st2 & Hap & H).
  apply alloc_percpu_inv in Hap as (st1 & Hat & Hcase).
  apply attempt_inv in Hat as [Hpv Hst1]. rewrite Hok in *.
  apply bind_inv in H as (u & st3 & Hset & H).
  apply set_percpu_dctx_inv in Hset.
  destruct Hcase as [[Hp _]|[Hp Hst2]]; [by subst p|].
  rewrite bool_decide_false in H by done.
  apply bind_inv in H as (ret & st4 & Hinit & H).
  case_bool_decide as Hret; [|apply ret_inv in H as [-> _]; done].
  apply bind_inv in H as (u' & st5 & Hfree & H).
  apply ret_inv in H as [-> ->].
  assert (pool_partial (Z.pos (brk st)) [] st3) as Hp3.
  { exists (replicate nr_cpu_ids (mk_dctx NULL NULL)).
    subst st3 st2. simpl. split_and!.
    - by rewrite lookup_insert_eq.
    - by rewrite length_replicate.
    - intros cpu s [-> _]%lookup_replicate. split; [|done].
      intros Hin. by apply elem_of_nil in Hin.
    - intros i j si sj _ [-> _]%lookup_replicate _ Hnn. done. }
  assert (Z.pos (brk st) ≤ Z.pos (brk st3)) as Hlo.
  { rewrite Hset, Hst2, Hst1. simpl. rewrite Pos2Z.inj_add. lia. }
  destruct (init_slots_failed (Z.pos (brk st)) possible_cpus [] st3 ret st4
              Hinit Hret (NoDup_seq 0 nr_cpu_ids)) as [Hroll _]; try done.
  { intros c _ Hin. by apply elem_of_nil in Hin. }
  by destruct (free_slots_rolls _ _ _ _ _ Hfree Hroll) as [? _].
Qed.

(** X9.  When the table was obtained and the pool creation then fails,
    afterwards every slot of the table is of one of three kinds: never
    touched (zero); built, with vfree called once on its workspace (by the
    rollback loop); or, only when the failure is an engine-construction
    failure (-EINVAL), left without an engine because the codec refused its
    workspace, with vfree called twice on that workspace (once by
    [zstd_decomp_init], once by the rollback loop).  A workspace that
    [alloc_mem] obtained from __vmalloc has thus been released once, or
    twice in the third case; a workspace that [alloc_mem] obtained from
    kzalloc has not been released. *)
Theorem create_percpu_rollback_accounting ctx st r st' :
  zcomp_zstd_create_percpu ctx st = Some (r, st') →
  r ≠ 0 →
  next_ok st = true →
  ∃ area,
    percpu_mem st' !! percpu_dctx st' = Some area ∧
    length area = nr_cpu_ids ∧
    ∀ cpu s, area !! cpu = Some s →
      s = mk_dctx NULL NULL ∨
      (dctx s ≠ NULL ∧
       (heap st' !! dwksp s
          = Some (mkblock Vmalloc ZSTD_DCtxWorkspaceBound true 1) ∨
        heap st' !! dwksp s
          = Some (mkblock Kzalloc ZSTD_DCtxWorkspaceBound true 0))) ∨
      (r = - EINVAL ∧ dctx s = NULL ∧
       ZSTD_initDCtx (dwksp s) ZSTD_DCtxWorkspaceBound = NULL ∧
       (heap st' !! dwksp s
          = Some (mkblock Vmalloc ZSTD_DCtxWorkspaceBound true 2) ∨
        heap st' !! dwksp s
          = Some (mkblock Kzalloc ZSTD_DCtxWorkspaceBound true 0))).
Proof.
  intros H Hr Hok.
  destruct (create_percpu_rolled _ _ _ _ H Hr Hok) as (area & Ha & Hl & Hs & _).
  exists area. split_and!; try done.
  intros cpu s Hcs.
  destruct (Hs cpu s Hcs)
    as [[->|[(Hn & _ & Hw)|(Hr' & Hn & Hi & _ & Hw)]] _].
  - by left.
  - right; left. done.
  - right; right. done.
Qed.

End Rollback.

(** ** The properties above on the test platform

    Two possible CPUs.  [demo_state no_faults] is the state after one
    successful creation from boot: the instance is at 4096 with its
    workspace at 4112, the table at 37904 with workspaces 37920 and
    197664. *)

Lemma create_leaves_earlier_objects_witness :
  heap (run_state (@zcomp_zstd_create (test_platform 2) (test_codec no_faults))
          (demo_state no_faults)) !! 37920
    = heap (demo_state no_faults) !! 37920 ∧
  ctx_mem (run_state (@zcomp_zstd_create (test_platform 2) (test_codec no_faults))
             (demo_state no_faults)) !! 37920
    = ctx_mem (demo_state no_faults) !! 37920 ∧
  percpu_mem (run_state (@zcomp_zstd_create (test_platform 2) (test_codec no_faults))
                (demo_state no_faults)) !! 37920
    = percpu_mem (demo_state no_faults) !! 37920.
Proof.
  apply (@create_leaves_earlier_objects (test_platform 2) (test_codec no_faults)
           (demo_state no_faults) 357408);
    [vm_compute; reflexivity | vm_compute; split; reflexivity].
Defined.

Lemma create_percpu_abandons_previous_table_witness :
  percpu_dctx (run_state (@zcomp_zstd_create_percpu (test_platform 2)
                            (test_codec no_faults) NULL) (demo_state no_faults))
    = (if next_ok (demo_state no_faults)
       then Z.pos (brk (demo_state no_faults)) else NULL) ∧
  percpu_dctx (run_state (@zcomp_zstd_create_percpu (test_platform 2)
                            (test_codec no_faults) NULL) (demo_state no_faults))
    ≠ percpu_dctx (demo_state no_faults) ∧
  heap (run_state (@zcomp_zstd_create_percpu (test_platform 2)
                     (test_codec no_faults) NULL) (demo_state no_faults))
    !! percpu_dctx (demo_state no_faults)
    = heap (demo_state no_faults) !! percpu_dctx (demo_state no_faults) ∧
  percpu_mem (run_state (@zcomp_zstd_create_percpu (test_platform 2)
                           (test_codec no_faults) NULL) (demo_state no_faults))
    !! percpu_dctx (demo_state no_faults)
    = percpu_mem (demo_state no_faults) !! percpu_dctx (demo_state no_faults).
Proof.
  apply (@create_percpu_abandons_previous_table (test_platform 2)
           (test_codec no_faults) NULL (demo_state no_faults) 0);
    [vm_compute; reflexivity | vm_compute; split; reflexivity].
Defined.

Lemma create_success_calls_no_free_witness :
  ∃ evs,
    trace (demo_state no_faults) = trace (boot []) ++ evs ∧
    Forall (λ e, ∀ f p, e ≠ EvFree f p) evs.
Proof.
  apply (@create_success_calls_no_free (test_platform 2) (test_codec no_faults)
           (boot []) 4096 (demo_state no_faults));
    [vm_compute; reflexivity | discriminate].
Defined.

Lemma destroy_teardown_order_witness :
  ∃ st',
    @zcomp_zstd_destroy (test_platform 2) 4096 (demo_state no_faults)
      = Some (tt, st') ∧
    percpu_dctx st' = NULL ∧
    trace st' =
      trace (demo_state no_faults)
      ++ (if bool_decide (4096 ≠ NULL)
          then [EvFree Kvfree (cwksp (mk_ctx 4112 4112))] else [])
      ++ map (λ s, EvFree Vfree (dwksp s))
           [mk_dctx 37920 37920; mk_dctx 197664 197664]
      ++ [EvFree Free_percpu (percpu_dctx (demo_state no_faults));
          EvFree Kfree 4096].
Proof.
  apply (@destroy_teardown_order (test_platform 2) 4096 (demo_state no_faults)
           (mk_ctx 4112 4112) [mk_dctx 37920 37920; mk_dctx 197664 197664]);
    [intros _; vm_compute; reflexivity | vm_compute; discriminate
    | vm_compute; reflexivity | reflexivity].
Defined.

Lemma create_pool_complete_witness :
  @pool_complete (test_platform 2) (test_codec no_faults) (demo_state no_faults) ∧
  ∃ c,
    ctx_mem (demo_state no_faults) !! 4096 = Some c ∧
    wksp_block (@cwksp_size (test_platform 2) (test_codec no_faults)) 0
      (cwksp c) (demo_state no_faults) ∧
    cctx c = @ZSTD_initCCtx (test_codec no_faults) (cwksp c)
               (@cwksp_size (test_platform 2) (test_codec no_faults)) ∧
    cctx c ≠ NULL ∧
    ∀ area cpu s,
      percpu_mem (demo_state no_faults) !! percpu_dctx (demo_state no_faults)
        = Some area →
      area !! cpu = Some s → dwksp s ≠ cwksp c.
Proof.
  apply (@create_pool_complete (test_platform 2) (test_codec no_faults)
           (boot []) 4096 (demo_state no_faults));
    [vm_compute; reflexivity | discriminate].
Defined.

Lemma create_destroy_accounting_witness :
  ∃ st2 c area,
    @zcomp_zstd_destroy (test_platform 2) 4096 mixed_state = Some (tt, st2) ∧
    ctx_mem mixed_state !! 4096 = Some c ∧
    percpu_mem mixed_state !! percpu_dctx mixed_state = Some area ∧
    length area = 2%nat ∧
    percpu_dctx st2 = NULL ∧
    (frees mixed_state 4096 = Some 0%nat ∧ frees st2 4096 = Some 1%nat) ∧
    (frees mixed_state (cwksp c) = Some 0%nat ∧
     frees st2 (cwksp c) = Some 1%nat) ∧
    (frees mixed_state (percpu_dctx mixed_state) = Some 0%nat ∧
     frees st2 (percpu_dctx mixed_state) = Some 1%nat) ∧
    (∀ cpu s, area !! cpu = Some s →
       (heap mixed_state !! dwksp s = Some (mkblock Vmalloc 159744 true 0) ∧
        heap st2 !! dwksp s = Some (mkblock Vmalloc 159744 true 1)) ∨
       (heap mixed_state !! dwksp s = Some (mkblock Kzalloc 159744 true 0) ∧
        heap st2 !! dwksp s = Some (mkblock Kzalloc 159744 true 0))) ∧
    (∀ a, a < Z.pos (brk (boot mixed_plan)) →
          heap st2 !! a = heap (boot mixed_plan) !! a).
Proof.
  apply (@create_destroy_accounting (test_platform 2) (test_codec no_faults)
           (boot mixed_plan) 4096 mixed_state);
    [vm_compute; reflexivity | discriminate].
Defined.

(** The same run, evaluated: CPU 0's workspace (from __vmalloc) is released
    by destroy, CPU 1's (from kzalloc) is passed to vfree and not
    released. *)
Example create_destroy_mixed_tiers :
  (λ r, (heap r.2 !! 37920, heap r.2 !! 197664, drop 6 (trace r.2))) <$>
    @zcomp_zstd_destroy (test_platform 2) 4096 mixed_state
  = Some (Some (mkblock Vmalloc 159744 true 1),
          Some (mkblock Kzalloc 159744 true 0),
          [EvFree Kvfree 4112; EvFree Vfree 37920; EvFree Vfree 197664;
           EvFree Free_percpu 37904; EvFree Kfree 4096]).
Proof. vm_compute. reflexivity. Qed.

Lemma create_percpu_rollback_accounting_witness :
  ∃ area,
    percpu_mem (run_state (@zcomp_zstd_create_percpu (test_platform 3)
                             (test_codec no_faults) NULL)
                  (boot rollback_plan))
      !! percpu_dctx (run_state (@zcomp_zstd_create_percpu (test_platform 3)
                                   (test_codec no_faults) NULL)
                        (boot rollback_plan))
      = Some area ∧
    length area = 3%nat ∧
    ∀ cpu s, area !! cpu = Some s →
      s = mk_dctx NULL NULL ∨
      (dctx s ≠ NULL ∧
       (heap (run_state (@zcomp_zstd_create_percpu (test_platform 3)
                           (test_codec no_faults) NULL)
                (boot rollback_plan)) !! dwksp s
          = Some (mkblock Vmalloc 159744 true 1) ∨
        heap (run_state (@zcomp_zstd_create_percpu (test_platform 3)
                           (test_codec no_faults) NULL)
                (boot rollback_plan)) !! dwksp s
          = Some (mkblock Kzalloc 159744 true 0))) ∨
      (- ENOMEM = - EINVAL ∧ dctx s = NULL ∧
       @ZSTD_initDCtx (test_codec no_faults) (dwksp s) 159744 = NULL ∧
       (heap (run_state (@zcomp_zstd_create_percpu (test_platform 3)
                           (test_codec no_faults) NULL)
                (boot rollback_plan)) !! dwksp s
          = Some (mkblock Vmalloc 159744 true 2) ∨
        heap (run_state (@zcomp_zstd_create_percpu (test_platform 3)
                           (test_codec no_faults) NULL)
                (boot rollback_plan)) !! dwksp s
          = Some (mkblock Kzalloc 159744 true 0))).
Proof.
  apply (@create_percpu_rollback_accounting (test_platform 3)
           (test_codec no_faults) NULL (boot rollback_plan) (- ENOMEM));
    [vm_compute; reflexivity | discriminate | reflexivity].
Defined.

(** ** The shared table after a destroy; failed creations under a codec
    whose engines always build *)

Section Shared.
Context {P : Platform} {C : Codec}.

Lemma destroy_keeps_percpu_mem private st u st1 :
  zcomp_zstd_destroy private st = Some (u, st1) →
  percpu_mem st1 = percpu_mem st.
Proof.
  unfold zcomp_zstd_destroy, kfree, kvfree, free_percpu. intros H.
  apply bind_inv in H as (u1 & s1 & H1 & H).
  apply bind_inv in H as (pd & s2 & Hg & H).
  apply get_percpu_dctx_inv in Hg as [-> ->].
  apply bind_inv in H as (u2 & s3 & H2 & H).
  apply release_inv in H. subst st1. simpl.
  assert (percpu_mem s1 = percpu_mem st) as Hs1.
  { clear -H1. case_bool_decide; run_inv; by subst. }
  case_bool_decide as Hpd.
  - apply bind_inv in H2 as (u3 & s4 & Hf & H2).
    apply free_slots_keeps in Hf as (_ & Hpm & _).
    run_inv. subst. simpl. congruence.
  - run_inv. by subst.
Qed.

(** X10.  The table is shared by all instances: after a destroy of any
    instance (or of NULL) [percpu_dctx] is NULL, and a decompress, on any
    CPU and on behalf of any instance, dereferences that NULL table: a wild
    access. *)
Theorem decompress_after_destroy_faults private st st1 cpu src src_len dst :
  zcomp_zstd_destroy private st = Some (tt, st1) →
  percpu_mem st !! NULL = None →
  zcomp_zstd_decompress cpu src src_len dst st1 = None.
Proof.
  intros H Hnull.
  pose proof (destroy_keeps_percpu_mem _ _ _ _ H) as Hpm.
  apply destroy_clears_table in H as [Hpd _].
  unfold zcomp_zstd_decompress.
  erewrite bind_run by reflexivity.
  unfold mbind, M_bind, load_slot. by rewrite Hpd, Hpm, Hnull.
Qed.

Lemma create_failed_brk ctx st p st' :
  create_failed ctx st = Some (p, st') → brk st' = brk st.
Proof.
  unfold create_failed, kvfree. intros H. run_inv. by subst.
Qed.

(** X11.  Under a codec whose engine construction never refuses a
    workspace, a creation that obtained its record and then fails (so: for
    lack of memory) has released no block twice.  Either it obtained no
    compression workspace; or that workspace, from whichever tier, has been
    released exactly once (by kvfree), and the table is absent (its
    allocation failed) or holds only untouched slots and built slots.  A
    built slot's workspace has been passed to vfree once: it has been
    released once if it came from __vmalloc, and has not been released if it
    came from kzalloc. *)
Theorem create_failure_accounting st st' :
  (∀ w size, w ≠ NULL → ZSTD_initCCtx w size ≠ NULL) →
  (∀ w size, w ≠ NULL → ZSTD_initDCtx w size ≠ NULL) →
  next_ok st = true →
  zcomp_zstd_create st = Some (NULL, st') →
  ∃ c,
    ctx_mem st' !! Z.pos (brk st) = Some c ∧
    (cwksp c = NULL ∨
     (wksp_block (ZSTD_CCtxWorkspaceBound (cParams zstd_params)) 1
        (cwksp c) st' ∧
      (percpu_dctx st' = NULL ∨
       ∃ area,
         percpu_mem st' !! percpu_dctx st' = Some area ∧
         length area = nr_cpu_ids ∧
         ∀ cpu s, area !! cpu = Some s →
           s = mk_dctx NULL NULL ∨
           (dctx s ≠ NULL ∧
            (heap st' !! dwksp s
               = Some (mkblock Vmalloc ZSTD_DCtxWorkspaceBound true 1) ∨
             heap st' !! dwksp s
               = Some (mkblock Kzalloc ZSTD_DCtxWorkspaceBound true 0)))))).
Proof.
  unfold zcomp_zstd_create. intros HC HD Hok H.
  apply bind_inv in H as (ctx & st1 & Hk & H).
  apply kmalloc_zstd_ctx_inv in Hk as (st0 & Hat & Hcase).
  apply attempt_inv in Hat as [-> ->]. rewrite Hok in *.
  destruct Hcase as [[[=] _]|[_ ->]].
  rewrite bool_decide_false in H by done.
  set (a := Z.pos (brk st)) in *.
  apply bind_inv in H as (ret & st2 & Hci & H).
  case_bool_decide as Hret.
  - (* the compression context fails: no workspace *)
    apply create_failed_inv in H as (c & Hc & _ & Hcm & _).
    apply zstd_comp_init_inv in Hci
      as (w & stx & c0 & h & _ & _ & Hcm2 & _ & _ & _ & _ & _ & Hcase).
    exists c. rewrite Hcm. split; [done|]. left.
    rewrite Hcm2, lookup_insert_eq in Hc. injection Hc as <-. simpl.
    destruct Hcase as [(-> & _)|(Hw & Hh & [(_ & ? & _)|(Hhn & _)])];
      [done|done|].
    destruct (HC w (ZSTD_CCtxWorkspaceBound (cParams zstd_params)) Hw).
    congruence.
  - assert (ret = 0) as -> by (destruct (decide (ret = 0)); tauto).
    apply zstd_comp_init_built in Hci
      as (w & Hcm2 & _ & Hwr & (fn & Hfn & Hwb) & _ & _).
    simpl in Hwr, Hcm2.
    assert (old w st2) as Hold by (unfold old; lia).
    apply bind_inv in H as (ret' & st3 & Hcp & H).
    case_bool_decide as Hret'; cycle 1.
    { apply ret_inv in H as [Hz _]. unfold a, NULL in Hz. lia. }
    destruct (zcomp_zstd_create_percpu_frame _ _ _ _ w Hcp Hold)
      as (Hh3 & Hold3 & Hcm3 & _).
    destruct (create_percpu_reference _ _ _ _ Hcp) as [Hpd3 _].
    pose proof (create_failed_brk _ _ _ _ H) as Hbrk.
    apply create_failed_inv in H as (c & Hc & _ & Hcm & Hheap & Hpd & Hpm & _).
    rewrite Hcm3, Hcm2, lookup_insert_eq in Hc. injection Hc as <-.
    simpl in *.
    assert (w ≠ NULL) as Hwn by (unfold NULL; lia).
    rewrite bool_decide_false in Hheap by done.
    exists (mk_ctx w (ZSTD_initCCtx w cwksp_size)). simpl.
    split; [by rewrite Hcm, Hcm3, Hcm2, lookup_insert_eq|]. right.
    assert (heap st3 !! w = Some (mkblock fn cwksp_size true 0)) as Hw3
      by (by rewrite Hh3).
    split.
    + split; [unfold old in *; rewrite Hbrk; lia|].
      exists fn. split; [done|].
      rewrite Hheap, lookup_alter_eq, Hw3.
      by destruct Hfn as [-> | ->].
    + destruct (next_ok st2) eqn:Hok2; [right|left; congruence].
      destruct (create_percpu_rolled _ _ _ _ Hcp Hret' Hok2)
        as (area & Ha & Hl & Hs & _).
      exists area. rewrite Hpm, Hpd. split_and!; try done.
      intros cpu s Hcs.
      destruct (Hs cpu s Hcs)
        as [[->|[(Hn & Ho & Hb)|(_ & _ & Hi & [[? ?] _])]] Hlo].
      * by left.
      * right. split; [done|].
        assert (dwksp s ≠ w) as Hne.
        { destruct Ho as [? _]. unfold NULL in Hlo. lia. }
        by rewrite Hheap, lookup_alter_ne.
      * destruct (HD (dwksp s) ZSTD_DCtxWorkspaceBound); [unfold NULL; lia|].
        done.
Qed.

End Shared.

(** Two instances: [demo_state no_faults], then a second creation. *)

Lemma page_operations_keep_memory_witness :
  same_memory (demo_state no_faults) (demo_state no_faults) ∧
  same_memory (demo_state no_faults)
    (run_state (@zcomp_zstd_decompress (test_platform 2) (test_codec no_faults)
                  0%nat two_pages 0 stale_page) (demo_state no_faults)).
Proof.
  split.
  - apply (proj1 (@page_operations_keep_memory (test_platform 2)
                    (test_codec no_faults))
             zero_page two_pages 0 4096 (demo_state no_faults)
             (0, overwrite (x00%byte :: zero_page) two_pages, 4097)).
    vm_compute. reflexivity.
  - apply (proj2 (@page_operations_keep_memory (test_platform 2)
                    (test_codec no_faults))
             0%nat two_pages 0 stale_page (demo_state no_faults)
             (- EINVAL, stale_page)).
    vm_compute. reflexivity.
Defined.

Lemma decompress_after_destroy_faults_witness :
  @zcomp_zstd_decompress (test_platform 2) (test_codec no_faults) 1%nat
    (overwrite (x00%byte :: zero_page) two_pages) 4097 stale_page
    (run_state (@zcomp_zstd_destroy (test_platform 2) 4096)
       (run_state (@zcomp_zstd_create (test_platform 2) (test_codec no_faults))
          (demo_state no_faults)))
  = None.
Proof.
  apply (@decompress_after_destroy_faults (test_platform 2)
           (test_codec no_faults) 4096
           (run_state (@zcomp_zstd_create (test_platform 2) (test_codec no_faults))
              (demo_state no_faults)));
    vm_compute; reflexivity.
Defined.

Lemma create_failure_accounting_witness :
  ∃ c,
    ctx_mem (@created (test_platform 2) (test_codec no_faults) failing_plan).2
      !! Z.pos (brk (boot failing_plan)) = Some c ∧
    (cwksp c = NULL ∨
     (wksp_block 33792 1 (cwksp c)
        (@created (test_platform 2) (test_codec no_faults) failing_plan).2 ∧
      (percpu_dctx (@created (test_platform 2) (test_codec no_faults)
                      failing_plan).2 = NULL ∨
       ∃ area,
         percpu_mem (@created (test_platform 2) (test_codec no_faults)
                       failing_plan).2
           !! percpu_dctx (@created (test_platform 2) (test_codec no_faults)
                             failing_plan).2
           = Some area ∧
         length area = 2%nat ∧
         ∀ cpu s, area !! cpu = Some s →
           s = mk_dctx NULL NULL ∨
           (dctx s ≠ NULL ∧
            (heap (@created (test_platform 2) (test_codec no_faults)
                     failing_plan).2 !! dwksp s
               = Some (mkblock Vmalloc 159744 true 1) ∨
             heap (@created (test_platform 2) (test_codec no_faults)
                     failing_plan).2 !! dwksp s
               = Some (mkblock Kzalloc 159744 true 0)))))).
Proof.
  apply (@create_failure_accounting (test_platform 2) (test_codec no_faults)
           (boot failing_plan));
    [intros w size Hw; exact Hw | intros w size Hw; exact Hw
    | reflexivity | vm_compute; reflexivity].
Defined.
